(** * SocialClip downloader: the application's own decision logic

    A shallow embedding of [socialclip_downloader.py]: the filename helpers
    ([clean_title], [make_unique_filepath]), the height probe
    ([ffprobe_get_height]) and the two worker bodies ([DownloadWorker.run],
    [ConvertFileWorker.run]).  External tools (the extractor, ffprobe,
    ffmpeg, the filesystem) are an explicit environment; what a worker does
    is recorded as a trace of events.

    Conventions.  A [string] stands for a Python [str] over the code points
    below 256, one character per code point; a title, which the code
    filters by code point, is a list of code points.  Python's [int] is
    [Z].  [os.path] is [posixpath].  Line numbers refer to
    [socialclip_downloader.py]. *)

From Stdlib Require Import ZArith Ascii String List Lia.
From stdpp Require Import gmap strings list pretty.

Local Open Scope Z_scope.

(** ** Python string helpers *)

Module PyStr.

(** Truthiness of a [str]: the empty string is falsy. *)
Definition truthy (s : string) : bool :=
  match s with
  | EmptyString => false
  | String _ _ => true
  end.

(** [s.startswith(c)] for a one-character [c]. *)
Definition startswith (c : ascii) (s : string) : bool :=
  match s with
  | EmptyString => false
  | String a _ => bool_decide (a = c)
  end.

(** [s.endswith(c)] for a one-character [c]. *)
Fixpoint endswith (c : ascii) (s : string) : bool :=
  match s with
  | EmptyString => false
  | String a EmptyString => bool_decide (a = c)
  | String _ rest => endswith c rest
  end.

(** [s[:n]] for [n >= 0]. *)
Fixpoint prefix (n : nat) (s : string) : string :=
  match n, s with
  | O, _ => EmptyString
  | S _, EmptyString => EmptyString
  | S n', String a rest => String a (prefix n' rest)
  end.

(** [s[n:]] for [n >= 0]. *)
Fixpoint suffix_from (n : nat) (s : string) : string :=
  match n, s with
  | O, _ => s
  | S _, EmptyString => EmptyString
  | S n', String _ rest => suffix_from n' rest
  end.

(** [s.rfind(c)]: the last index of [c], or [-1]. *)
Fixpoint rfind_from (c : ascii) (s : string) (i last : Z) : Z :=
  match s with
  | EmptyString => last
  | String a rest =>
      rfind_from c rest (i + 1) (if bool_decide (a = c) then i else last)
  end.

Definition rfind (c : ascii) (s : string) : Z := rfind_from c s 0 (-1).

(** Every character of [s] satisfies [p]. *)
Fixpoint all_chars (p : ascii -> bool) (s : string) : bool :=
  match s with
  | EmptyString => true
  | String a rest => p a && all_chars p rest
  end.

(** Whitespace as [str.isspace], [str.strip] and the regex class [\s]
    see it, for code points below 256: TAB..CR, FS..US, space, NEL and
    NBSP. *)
Definition is_space (c : ascii) : bool :=
  let n := N_of_ascii c in
  ((9 <=? n) && (n <=? 13) || (28 <=? n) && (n <=? 32)
   || (n =? 133) || (n =? 160))%N.

Definition is_digit (c : ascii) : bool :=
  let n := N_of_ascii c in ((48 <=? n) && (n <=? 57))%N.

(** The regex class [\w] on ASCII text: letters, digits, underscore. *)
Definition is_word (c : ascii) : bool :=
  let n := N_of_ascii c in
  ((48 <=? n) && (n <=? 57) || (65 <=? n) && (n <=? 90)
   || (97 <=? n) && (n <=? 122) || (n =? 95))%N.

Fixpoint lstrip (s : string) : string :=
  match s with
  | EmptyString => EmptyString
  | String a rest => if is_space a then lstrip rest else s
  end.

Fixpoint rstrip (s : string) : string :=
  match s with
  | EmptyString => EmptyString
  | String a rest =>
      let r := rstrip rest in
      if is_space a && negb (truthy r) then EmptyString else String a r
  end.

(** [s.strip()] *)
Definition strip (s : string) : string := rstrip (lstrip s).

(** Line boundaries of [str.splitlines], for code points below 256. *)
Definition is_linebreak (c : ascii) : bool :=
  let n := N_of_ascii c in
  ((10 <=? n) && (n <=? 13) || (28 <=? n) && (n <=? 30) || (n =? 133))%N.

Fixpoint until_linebreak (s : string) : string :=
  match s with
  | EmptyString => EmptyString
  | String a rest =>
      if is_linebreak a then EmptyString else String a (until_linebreak rest)
  end.

(** [s.splitlines()[0]]: [None] stands for the [IndexError] of indexing
    the empty list, which [splitlines] returns only for the empty string. *)
Definition first_line (s : string) : option string :=
  match s with
  | EmptyString => None
  | String _ _ => Some (until_linebreak s)
  end.

(** The digits of an [int] literal: decimal digits, single underscores
    allowed between two digits. *)
Fixpoint digits_value (acc : Z) (after_digit : bool) (s : string) : option Z :=
  match s with
  | EmptyString => if after_digit then Some acc else None
  | String a rest =>
      if is_digit a
      then digits_value (10 * acc + (Z.of_N (N_of_ascii a) - 48)) true rest
      else if bool_decide (a = "_"%char) && after_digit
           then match rest with
                | EmptyString => None
                | String b _ =>
                    if is_digit b then digits_value acc false rest else None
                end
           else None
  end.

(** [int(s)]: surrounding whitespace, an optional sign, then the digits.
    [None] stands for [ValueError]. *)
Definition int (s : string) : option Z :=
  match strip s with
  | String "-"%char rest => Z.opp <$> digits_value 0 false rest
  | String "+"%char rest => digits_value 0 false rest
  | t => digits_value 0 false t
  end.

(** [needle in s]: [needle] occurs in [s] as a substring. *)
Fixpoint contains (needle s : string) : bool :=
  String.prefix needle s
  || match s with
     | EmptyString => false
     | String _ rest => contains needle rest
     end.

(** [s.lstrip(c)] for a one-character [c]. *)
Fixpoint lstrip_char (c : ascii) (s : string) : string :=
  match s with
  | EmptyString => EmptyString
  | String a rest => if bool_decide (a = c) then lstrip_char c rest else s
  end.

(** The code points of a string. *)
Fixpoint code_points (s : string) : list N :=
  match s with
  | EmptyString => []
  | String a rest => N_of_ascii a :: code_points rest
  end.

End PyStr.

(** ** [os.path] on POSIX ([posixpath]) *)

Module PosixPath.

Definition sep : ascii := "/"%char.

(** [os.path.join(a, b)]: an absolute [b] replaces [a]; otherwise [b] is
    appended, with a separator unless [a] is empty or already ends in one. *)
Definition join (a b : string) : string :=
  if PyStr.startswith sep b then b
  else if negb (PyStr.truthy a) || PyStr.endswith sep a then a +:+ b
  else a +:+ String sep b.

(** [os.path.splitext(p)]: split at the last dot of the last component,
    unless that component consists of leading dots only up to there. *)
Definition splitext (p : string) : string * string :=
  let sepIndex := PyStr.rfind sep p in
  let dotIndex := PyStr.rfind "."%char p in
  let leading :=
    PyStr.prefix (Z.to_nat (dotIndex - (sepIndex + 1)))
      (PyStr.suffix_from (Z.to_nat (sepIndex + 1)) p) in
  if (sepIndex <? dotIndex)
     && negb (PyStr.all_chars (fun a => bool_decide (a = "."%char)) leading)
  then (PyStr.prefix (Z.to_nat dotIndex) p,
        PyStr.suffix_from (Z.to_nat dotIndex) p)
  else (p, EmptyString).

(** [os.path.basename(p)], which is also [os.path.split(p)[1]]: what
    follows the last separator. *)
Definition basename (p : string) : string :=
  PyStr.suffix_from (Z.to_nat (PyStr.rfind sep p + 1)) p.

End PosixPath.

(** ** The filesystem, as the set of paths that exist *)

Definition path_exists (fs : gset string) (p : string) : bool :=
  bool_decide (p ∈ fs).

(** ** [make_unique_filepath] (lines 60-76) *)

Section MakeUnique.

Variable fs : gset string.
Variables save_dir base_filename ext : string.

(** [os.path.join(save_dir, f"{base_filename}.{ext}")] *)
Definition candidate : string :=
  PosixPath.join save_dir (base_filename +:+ "." +:+ ext).

(** [os.path.join(save_dir, f"{base_filename}_{fallback_id}.{ext}")] *)
Definition candidate2 (fallback_id : string) : string :=
  PosixPath.join save_dir (base_filename +:+ "_" +:+ fallback_id +:+ "." +:+ ext).

(** [os.path.join(save_dir, f"{base_filename}_{i}.{ext}")] *)
Definition candidate3 (i : Z) : string :=
  PosixPath.join save_dir (base_filename +:+ "_" +:+ pretty i +:+ "." +:+ ext).

(** The [while True] loop of lines 72-76.  [fuel] bounds the number of
    iterations; [None] means the loop is still running when it is spent. *)
Fixpoint numeric_loop (fuel : nat) (i : Z) : option string :=
  match fuel with
  | O => None
  | S fuel' =>
      if negb (path_exists fs (candidate3 i)) then Some (candidate3 i)
      else numeric_loop fuel' (i + 1)
  end.

(** [fallback_id] defaults to [None]; [if fallback_id:] is false for
    [None] and for the empty string. *)
Definition fallback_given (fallback_id : option string) : bool :=
  match fallback_id with
  | None => false
  | Some s => PyStr.truthy s
  end.

Definition make_unique_filepath (fuel : nat) (fallback_id : option string)
  : option string :=
  if negb (path_exists fs candidate) then Some candidate
  else
    match fallback_id with
    | Some fid =>
        if PyStr.truthy fid && negb (path_exists fs (candidate2 fid))
        then Some (candidate2 fid)
        else numeric_loop fuel 1
    | None => numeric_loop fuel 1
    end.

End MakeUnique.

(** ** [clean_title] (lines 19-27) *)

Module Title.

(** [title.encode('ascii', 'ignore').decode('ascii')] on a string given
    by its code points: every code point from 128 up is dropped. *)
Fixpoint encode_ascii_ignore (title : list N) : string :=
  match title with
  | [] => EmptyString
  | cp :: rest =>
      if (cp <? 128)%N then String (ascii_of_N cp) (encode_ascii_ignore rest)
      else encode_ascii_ignore rest
  end.

(** [re.sub(cls, '', s)] for a one-character class [cls]. *)
Fixpoint sub_delete (cls : ascii -> bool) (s : string) : string :=
  match s with
  | EmptyString => EmptyString
  | String a rest =>
      if cls a then sub_delete cls rest else String a (sub_delete cls rest)
  end.

(** [re.sub(cls, ' ', s)] for a one-character class [cls]. *)
Fixpoint sub_space (cls : ascii -> bool) (s : string) : string :=
  match s with
  | EmptyString => EmptyString
  | String a rest =>
      String (if cls a then " "%char else a) (sub_space cls rest)
  end.

(** [re.sub(r"\s+", ' ', s)]: each maximal run of whitespace becomes one
    space; [in_run] tells that the previous character was whitespace. *)
Fixpoint sub_runs (in_run : bool) (s : string) : string :=
  match s with
  | EmptyString => EmptyString
  | String a rest =>
      if PyStr.is_space a
      then if in_run then sub_runs true rest
           else String " "%char (sub_runs true rest)
      else String a (sub_runs false rest)
  end.

Definition in_class (cls : list ascii) (a : ascii) : bool :=
  bool_decide (a ∈ cls).

(** The class of line 23: hash and at sign. *)
Definition tag_chars : list ascii := ["#"%char; "@"%char].

(** The double quote, code point 34. *)
Definition dquote : ascii := ascii_of_N 34.

(** The class of line 24: backslash, slash, colon, star, question mark,
    double quote, angle brackets and bar. *)
Definition reserved_chars : list ascii :=
  ["\"%char; "/"%char; ":"%char; "*"%char; "?"%char; dquote;
   "<"%char; ">"%char; "|"%char].

(** The class of line 25: everything but word characters, whitespace
    and the hyphen. *)
Definition not_word_space_hyphen (a : ascii) : bool :=
  negb (PyStr.is_word a || PyStr.is_space a || bool_decide (a = "-"%char)).

Definition clean_title (title : list N) : string :=
  match title with
  | [] => "video"
  | _ :: _ =>
      let title_ascii := encode_ascii_ignore title in
      let title_ascii := sub_delete (in_class tag_chars) title_ascii in
      let title_ascii := sub_space (in_class reserved_chars) title_ascii in
      let title_ascii := sub_delete not_word_space_hyphen title_ascii in
      let title_ascii := PyStr.strip (sub_runs false title_ascii) in
      let cut := PyStr.prefix 120 title_ascii in
      if PyStr.truthy cut then cut else "video"
  end.

(** What lines 22-26 leave of a title, before the cut to 120 characters. *)
Definition sanitized (title : list N) : string :=
  PyStr.strip
    (sub_runs false
       (sub_delete not_word_space_hyphen
          (sub_space (in_class reserved_chars)
             (sub_delete (in_class tag_chars) (encode_ascii_ignore title))))).

(** The characters the claim on filenames excludes. *)
Definition forbidden_chars : list ascii := reserved_chars ++ tag_chars.

Definition is_ascii (a : ascii) : bool := (N_of_ascii a <? 128)%N.

(** The base filename of [MainWindow.on_download] (lines 377-381).
    [stamp] is [datetime.datetime.now().strftime("%Y%m%d_%H%M%S")]. *)
Definition base_filename (title uploader : list N)
    (checkbox_channel checkbox_timestamp : bool) (stamp : string) : string :=
  let base := clean_title title in
  let base :=
    if checkbox_channel && negb (bool_decide (uploader = []))
    then base +:+ "_" +:+ clean_title uploader else base in
  if checkbox_timestamp then base +:+ "_" +:+ stamp else base.

End Title.

(** ** Effects: a trace of events and Python exceptions *)

(** An exception, by its class name and its [str()].  Whatever the
    extractor, a subprocess call or an operator raises is an instance of
    [Exception], the class both handlers name. *)
Record exn := Exception { exn_class : string; exn_text : string }.

Inductive result (A : Type) :=
| Ok (a : A)
| Raise (e : exn).
Arguments Ok {A} a.
Arguments Raise {A} e.

(** What a worker does to the outside world. *)
Inductive event :=
| StatusSignal (msg : string)             (* status_signal.emit(msg) *)
| FinishedSignal (msg : string)           (* finished_signal.emit(msg) *)
| ExtractorDownload (url outtmpl : string)  (* ydl.extract_info(url, download=True) *)
| CheckOutput (cmd : list string)         (* subprocess.check_output(cmd, ...) *)
| SubprocessRun (cmd : list string).      (* subprocess.run(cmd, ...) *)

(** A computation: the events it causes, in order, and how it ends. *)
Definition M (A : Type) : Type := list event * result A.

Definition trace {A} (m : M A) : list event := fst m.
Definition outcome {A} (m : M A) : result A := snd m.

Global Instance M_ret : MRet M := fun A a => ([], Ok a).

Global Instance M_bind : MBind M := fun A B f m =>
  match m with
  | (t, Ok a) => let '(t', r) := f a in (t ++ t', r)
  | (t, Raise e) => (t, Raise e)
  end.

Definition emit (ev : event) : M unit := ([ev], Ok tt).

Definition raise {A} (e : exn) : M A := ([], Raise e).

(** [try: body / except Exception as e: handler(e)] *)
Definition try_except {A} (body : M A) (handler : exn -> M A) : M A :=
  match body with
  | (t, Ok a) => (t, Ok a)
  | (t, Raise e) => let '(t', r) := handler e in (t ++ t', r)
  end.

(** Kinds of events. *)
Definition is_download (ev : event) : bool :=
  match ev with ExtractorDownload _ _ => true | _ => false end.

Definition is_probe (ev : event) : bool :=
  match ev with CheckOutput _ => true | _ => false end.

Definition is_transcode (ev : event) : bool :=
  match ev with SubprocessRun _ => true | _ => false end.

(** A blocking call of an external tool. *)
Definition is_external (ev : event) : bool :=
  is_download ev || is_probe ev || is_transcode ev.

Fixpoint count_events (p : event -> bool) (t : list event) : nat :=
  match t with
  | [] => O
  | ev :: rest => ((if p ev then 1 else 0) + count_events p rest)%nat
  end.

(** [finished_signal] was emitted with a message that starts with [start]. *)
Definition finished_with (start : string) (ev : event) : bool :=
  match ev with
  | FinishedSignal msg => String.prefix start msg
  | _ => false
  end.

Definition status_with (start : string) (ev : event) : bool :=
  match ev with
  | StatusSignal msg => String.prefix start msg
  | _ => false
  end.

Ltac unfold_M :=
  unfold mbind, M_bind, mret, M_ret, emit, raise, try_except in *.

(** From "the probe ends with some height" and "it ended with [h]": the
    probe's full result, with the counts of its events. *)
Ltac height_known Hshape Hout :=
  let t := fresh "t" in
  let h' := fresh "h" in
  let Hrun := fresh "Hrun" in
  let Hd := fresh "Hd" in
  let Ht := fresh "Ht" in
  let Hp := fresh "Hp" in
  destruct Hshape as (t & h' & Hrun & Hd & Ht & Hp);
  rewrite Hrun in Hout; simpl in Hout; injection Hout as ->.

(** The extractor's answer to the download of lines 102-105. *)
Record download := {
  info_height : option Z;        (* info.get('height') *)
  downloaded_file : string       (* ydl.prepare_filename(info) *)
}.

(** The outside world a worker runs in. *)
Record environment := {
  (* the [with YoutubeDL(ydl_opts)] block, given url and outtmpl *)
  ydl_download : string -> string -> result download;
  (* subprocess.check_output(cmd, stderr=STDOUT).decode() *)
  check_output : list string -> result string;
  (* subprocess.run(cmd, stdout=DEVNULL, stderr=DEVNULL) *)
  subprocess_run : list string -> result unit;
  (* os.path.exists(path) *)
  os_path_exists : string -> bool
}.

Section Workers.

Variable env : environment.

Definition call_extractor (url outtmpl : string) : M download :=
  (emit (ExtractorDownload url outtmpl);; ([], ydl_download env url outtmpl)).

Definition call_check_output (cmd : list string) : M string :=
  (emit (CheckOutput cmd);; ([], check_output env cmd)).

Definition call_run (cmd : list string) : M unit :=
  (emit (SubprocessRun cmd);; ([], subprocess_run env cmd)).

(** *** [ffprobe_get_height] (lines 36-58) *)

Definition probe_cmd (tool path : string) : list string :=
  [tool; "-v"; "error"; "-select_streams"; "v:0";
   "-show_entries"; "stream=height"; "-of"; "csv=p=0"; path].

(** The body of one [try] block: [Some h] is [return h], [None] is
    falling out of the block ([out] was empty). *)
Definition probe_block (tool path : string) : M (option Z) :=
  out ← call_check_output (probe_cmd tool path);
  let out := PyStr.strip out in
  if PyStr.truthy out then
    match PyStr.first_line out with
    | None => raise (Exception "IndexError" "list index out of range")
    | Some line =>
        match PyStr.int (PyStr.strip line) with
        | None => raise (Exception "ValueError" "invalid literal for int()")
        | Some h => mret (Some h)
        end
    end
  else mret None.

(** What a probe's answer holds: the integer on the first line of its
    output, if the probe ran, printed something and that parses. *)
Definition numeric_output (r : result string) : option Z :=
  match r with
  | Raise _ => None
  | Ok out =>
      match PyStr.first_line (PyStr.strip out) with
      | None => None
      | Some line => PyStr.int (PyStr.strip line)
      end
  end.

Definition ffprobe_get_height (path : string) : M Z :=
  r ← try_except (probe_block "ffprobe" path) (fun _ => mret None);
  match r with
  | Some h => mret h
  | None =>
      r ← try_except (probe_block "ffmpeg" path) (fun _ => mret None);
      match r with
      | Some h => mret h
      | None => mret 0
      end
  end.

(** *** [DownloadWorker] (lines 80-149) *)

Record DownloadWorker := {
  dw_url : string;
  dw_outtmpl : string;
  dw_convert : bool;
  dw_target_resolution : Z;
  dw_output_type : string
}.

(** [info.get('height') or ffprobe_get_height(downloaded_file)]: the
    probe runs only when the extractor's height is missing or zero. *)
Definition final_height_of (dl : download) : M Z :=
  match info_height dl with
  | Some h => if h =? 0 then ffprobe_get_height (downloaded_file dl) else mret h
  | None => ffprobe_get_height (downloaded_file dl)
  end.

Definition mp3_cmd (input mp3_path : string) : list string :=
  ["ffmpeg"; "-i"; input; "-q:a"; "0"; "-map"; "a"; "-y"; mp3_path].

Definition wav_cmd (input out_path : string) : list string :=
  ["ffmpeg"; "-i"; input; "-vn"; "-acodec"; "pcm_s16le";
   "-ar"; "44100"; "-ac"; "2"; "-y"; out_path].

Definition scale_cmd (input : string) (target : Z) (out_file : string)
  : list string :=
  ["ffmpeg"; "-i"; input;
   "-c:v"; "libx264"; "-preset"; "slow"; "-crf"; "22";
   "-vf"; "scale=-2:" +:+ pretty target;
   "-c:a"; "aac"; "-b:a"; "128k"; "-y"; out_file].

(** [f"{base}_{target}p.mp4"] with [base] the path without its
    extension (lines 133-134 and 196-197). *)
Definition scaled_path (input : string) (target : Z) : string :=
  fst (PosixPath.splitext input) +:+ "_" +:+ pretty target +:+ "p.mp4".

Definition msg_no_upscaling (height target : Z) : string :=
  "Skipped conversion: source (" +:+ pretty height
    +:+ "p) is lower than target (" +:+ pretty target
    +:+ "p). No upscaling.".

Definition msg_equal (height : Z) : string :=
  "Skipped conversion: source resolution equals target ("
    +:+ pretty height +:+ "p).".

(** The warning of line 125. *)
Definition unknown_height_warning : list event :=
  [StatusSignal
     "Warning: could not detect source resolution; attempting conversion."].

(** Lines 121-147, once the height is known. *)
Definition dw_after_probe (self : DownloadWorker) (file : string)
    (final_height : Z) : M unit :=
  if String.eqb (dw_output_type self) "MP3" then
    let mp3_path := fst (PosixPath.splitext file) +:+ ".mp3" in
    emit (StatusSignal "Converting downloaded file to MP3...");;
    call_run (mp3_cmd file mp3_path);;
    emit (FinishedSignal ("MP3 saved: " +:+ mp3_path))
  else if dw_convert self && String.eqb (dw_output_type self) "MP4" then
    (if final_height =? 0
     then emit (StatusSignal
       "Warning: could not detect source resolution; attempting conversion.")
     else mret tt);;
    if (dw_target_resolution self >? final_height) && (final_height >? 0)
    then emit (FinishedSignal
                 (msg_no_upscaling final_height (dw_target_resolution self)))
    else if final_height =? dw_target_resolution self
    then emit (FinishedSignal (msg_equal final_height))
    else
      let out_file := scaled_path file (dw_target_resolution self) in
      emit (StatusSignal ("Converting to " +:+ pretty (dw_target_resolution self)
                            +:+ "p -> " +:+ out_file));;
      call_run (scale_cmd file (dw_target_resolution self) out_file);;
      emit (FinishedSignal ("Conversion completed: " +:+ out_file))
  else emit (FinishedSignal ("Download finished: " +:+ file)).

(** The body of the [try] (lines 94-147). *)
Definition dw_body (self : DownloadWorker) : M unit :=
  emit (StatusSignal "Starting download...");;
  dl ← call_extractor (dw_url self) (dw_outtmpl self);
  emit (StatusSignal ("Downloaded: " +:+ downloaded_file dl));;
  final_height ← final_height_of dl;
  emit (StatusSignal ("Detected source height: " +:+ pretty final_height +:+ "p"));;
  dw_after_probe self (downloaded_file dl) final_height.

Definition dw_handler (e : exn) : M unit :=
  emit (FinishedSignal ("Error during download/conversion: " +:+ exn_text e)).

(** [DownloadWorker.run] *)
Definition dw_run (self : DownloadWorker) : M unit :=
  try_except (dw_body self) dw_handler.

(** *** [ConvertFileWorker] (lines 151-211) *)

Record ConvertFileWorker := {
  cw_input_path : string;
  cw_output_type : string;
  cw_target_resolution : option Z   (* defaults to None *)
}.

(** [self.target_resolution > src_height]: comparing [None] with an
    [int] raises [TypeError]. *)
Definition target_gt (target : option Z) (height : Z) : M bool :=
  match target with
  | Some t => mret (t >? height)
  | None => raise (Exception "TypeError"
      "'>' not supported between instances of 'NoneType' and 'int'")
  end.

(** [self.target_resolution == src_height] *)
Definition target_eq (target : option Z) (height : Z) : bool :=
  match target with
  | Some t => t =? height
  | None => false
  end.

(** [f"{self.target_resolution}"] *)
Definition target_str (target : option Z) : string :=
  match target with
  | Some t => pretty t
  | None => "None"
  end.

(** Lines 186-207, once the height is known. *)
Definition cw_after_probe (self : ConvertFileWorker) (src_height : Z) : M unit :=
  if src_height =? 0 then
    emit (StatusSignal "Warning: couldn't detect source height; aborting conversion.");;
    emit (FinishedSignal "Conversion aborted: unknown source resolution.")
  else
    gt ← target_gt (cw_target_resolution self) src_height;
    if (gt : bool) then
      emit (FinishedSignal
        ("Skipped conversion: source (" +:+ pretty src_height
           +:+ "p) is lower than target ("
           +:+ target_str (cw_target_resolution self)
           +:+ "p). No upscaling."))
    else if target_eq (cw_target_resolution self) src_height then
      emit (FinishedSignal (msg_equal src_height))
    else
      let out_path :=
        fst (PosixPath.splitext (cw_input_path self)) +:+ "_"
          +:+ target_str (cw_target_resolution self) +:+ "p.mp4" in
      emit (StatusSignal ("Converting to "
                            +:+ target_str (cw_target_resolution self)
                            +:+ "p -> " +:+ out_path));;
      call_run
        (["ffmpeg"; "-i"; cw_input_path self;
          "-c:v"; "libx264"; "-preset"; "slow"; "-crf"; "22";
          "-vf"; "scale=-2:" +:+ target_str (cw_target_resolution self);
          "-c:a"; "aac"; "-b:a"; "128k"; "-y"; out_path]);;
      emit (FinishedSignal ("Conversion completed: " +:+ out_path)).

(** The body of the [try] (lines 163-209). *)
Definition cw_body (self : ConvertFileWorker) : M unit :=
  if negb (os_path_exists env (cw_input_path self)) then
    emit (FinishedSignal "Input file does not exist.")
  else if String.eqb (cw_output_type self) "MP3"
          || String.eqb (cw_output_type self) "WAV" then
    let base := fst (PosixPath.splitext (cw_input_path self)) in
    if String.eqb (cw_output_type self) "MP3" then
      let out_path := base +:+ ".mp3" in
      emit (StatusSignal ("Converting to MP3: " +:+ out_path));;
      call_run (mp3_cmd (cw_input_path self) out_path);;
      emit (FinishedSignal ("Audio saved: " +:+ out_path))
    else
      let out_path := base +:+ ".wav" in
      emit (StatusSignal ("Converting to WAV: " +:+ out_path));;
      call_run (wav_cmd (cw_input_path self) out_path);;
      emit (FinishedSignal ("Audio saved: " +:+ out_path))
  else if String.eqb (cw_output_type self) "MP4" then
    src_height ← ffprobe_get_height (cw_input_path self);
    emit (StatusSignal ("Source resolution detected: "
                          +:+ pretty src_height +:+ "p"));;
    cw_after_probe self src_height
  else emit (FinishedSignal "Unknown conversion parameters.").

Definition cw_handler (e : exn) : M unit :=
  emit (FinishedSignal ("Error during conversion: " +:+ exn_text e)).

(** [ConvertFileWorker.run] *)
Definition cw_run (self : ConvertFileWorker) : M unit :=
  try_except (cw_body self) cw_handler.

End Workers.

(** ** Sample environments *)

Module Sample.

Definition newline : string := String (ascii_of_N 10) EmptyString.

(** A world where the download succeeds as [/dl/clip.mp4] with the
    extractor reporting [height], every probe answers [probe], ffmpeg
    runs, and the paths in [fs] exist. *)
Definition world (height : option Z) (probe : result string)
    (fs : gset string) : environment :=
  {| ydl_download := fun _ _ =>
       Ok {| info_height := height; downloaded_file := "/dl/clip.mp4" |};
     check_output := fun _ => probe;
     subprocess_run := fun _ => Ok tt;
     os_path_exists := path_exists fs |}.

Definition no_probe : result string :=
  Raise (Exception "FileNotFoundError" "No such file or directory: 'ffprobe'").

(** A world without network: the extractor raises. *)
Definition offline : environment :=
  {| ydl_download := fun _ _ =>
       Raise (Exception "DownloadError" "Unable to download webpage");
     check_output := fun _ => no_probe;
     subprocess_run := fun _ =>
       Raise (Exception "FileNotFoundError" "No such file or directory: 'ffmpeg'");
     os_path_exists := path_exists {[ "/dl/clip.mp4" ]} |}.

Definition download_worker (convert : bool) (target : Z) (output_type : string)
  : DownloadWorker :=
  {| dw_url := "https://example.org/v/1";
     dw_outtmpl := "/dl/clip.%(ext)s";
     dw_convert := convert;
     dw_target_resolution := target;
     dw_output_type := output_type |}.

Definition convert_worker (output_type : string) (target : option Z)
  : ConvertFileWorker :=
  {| cw_input_path := "/dl/clip.mp4";
     cw_output_type := output_type;
     cw_target_resolution := target |}.

End Sample.

(** ** [get_uploader] (lines 29-34) *)

(** The string-valued fields of the extractor's info dict; a key bound to
    [None] is left out, as [info.get] cannot tell the two apart. *)
Abbreviation info_dict := (gmap string string).

(** The [for] loop over the keys: the first value that is truthy. *)
Fixpoint first_truthy (info : info_dict) (keys : list string) : string :=
  match keys with
  | [] => ""
  | k :: rest =>
      match info !! k with
      | Some v => if PyStr.truthy v then v else first_truthy info rest
      | None => first_truthy info rest
      end
  end.

Definition uploader_keys : list string :=
  ["uploader"; "channel"; "creator"; "uploader_id"].

Definition get_uploader (info : info_dict) : string :=
  first_truthy info uploader_keys.

(** ** [MainWindow.on_download] (lines 373-401) *)

(** [a or b] on strings. *)
Definition str_or (a b : string) : string := if PyStr.truthy a then a else b.

(** [info.get(k) or b] *)
Definition get_or (info : info_dict) (k : string) (b : string) : string :=
  match info !! k with
  | Some v => str_or v b
  | None => b
  end.

(** Line 373: [info.get('title') or info.get('id') or 'video']. *)
Definition download_title (info : info_dict) : string :=
  get_or info "title" (get_or info "id" "video").

(** Line 375: [info.get('id') or '']. *)
Definition download_vid_id (info : info_dict) : string := get_or info "id" "".

(** Lines 374-381, with [get_uploader(info) or ''] for the uploader. *)
Definition download_base_filename (info : info_dict)
    (checkbox_channel checkbox_timestamp : bool) (stamp : string) : string :=
  Title.base_filename
    (PyStr.code_points (download_title info))
    (PyStr.code_points (str_or (get_uploader info) ""))
    checkbox_channel checkbox_timestamp stamp.

(** Lines 388-390: the extension of the filename the extractor predicts,
    [mp4] when it has none. *)
Definition predicted_ext (predicted : string) : string :=
  let pred_name := PosixPath.basename predicted in
  let pred_ext := snd (PosixPath.splitext pred_name) in
  let ext := PyStr.lstrip_char "."%char pred_ext in
  if PyStr.truthy ext then ext else "mp4".

(** Line 393. *)
Definition download_final_path (fs : gset string) (fuel : nat)
    (save_dir : string) (info : info_dict)
    (checkbox_channel checkbox_timestamp : bool) (stamp predicted : string)
  : option string :=
  make_unique_filepath fs save_dir
    (download_base_filename info checkbox_channel checkbox_timestamp stamp)
    (predicted_ext predicted) fuel (Some (download_vid_id info)).

(** Line 395. *)
Definition final_base (final_path : string) : string :=
  fst (PosixPath.splitext (PosixPath.basename final_path)).

(** Line 396. *)
Definition final_outtmpl (save_dir final_path : string) : string :=
  PosixPath.join save_dir (final_base final_path +:+ ".%(ext)s").

(** Lines 399-406: the worker [on_download] starts. *)
Definition download_output_type (output_text : string) : string :=
  if PyStr.contains "MP3" output_text then "MP3" else "MP4".

Definition on_download_worker (url outtmpl output_text : string)
    (convert_checked : bool) (target_resolution : Z) : DownloadWorker :=
  let output_type := download_output_type output_text in
  {| dw_url := url;
     dw_outtmpl := outtmpl;
     dw_convert := convert_checked && String.eqb output_type "MP4";
     dw_target_resolution := target_resolution;
     dw_output_type := output_type |}.

(** ** [MainWindow.on_convert_file] (lines 422-444) *)

Inductive gui_action :=
| ShowWarning (title text : string)     (* QMessageBox.warning(...), return *)
| StartConvert (w : ConvertFileWorker). (* self.conv_worker.start() *)

(** Lines 431-437. *)
Definition convert_output_type (out_sel : string) : string :=
  if PyStr.contains "MP4" out_sel then "MP4"
  else if PyStr.contains "MP3" out_sel then "MP3"
  else "WAV".

(** The slot, as a function of the texts of its three widgets. *)
Definition on_convert_file (env : environment)
    (file_path_text out_sel res_text : string) : result gui_action :=
  let path := PyStr.strip file_path_text in
  if negb (PyStr.truthy path) then
    Ok (ShowWarning "No file" "Please select a file to convert.")
  else if negb (os_path_exists env path) then
    Ok (ShowWarning "Missing" "Selected file path does not exist.")
  else
    let out_type := convert_output_type out_sel in
    match PyStr.int res_text with
    | None => Raise (Exception "ValueError" "invalid literal for int()")
    | Some target_res =>
        Ok (StartConvert
              {| cw_input_path := path;
                 cw_output_type := out_type;
                 cw_target_resolution :=
                   if String.eqb out_type "MP4" then Some target_res else None |})
    end.

(** ** Scenarios and further classifiers *)

(** Letters, digits, underscore, hyphen and the space. *)
Definition plain_char (a : ascii) : bool :=
  PyStr.is_word a || bool_decide (a = "-"%char) || bool_decide (a = " "%char).

(** The character [c] does not occur in [s]. *)
Definition lacks (c : ascii) (s : string) : bool :=
  PyStr.all_chars (fun a => negb (bool_decide (a = c))) s.

(** No two spaces in a row. *)
Fixpoint single_spaced (s : string) : bool :=
  match s with
  | EmptyString => true
  | String a rest =>
      negb (bool_decide (a = " "%char) && PyStr.startswith " "%char rest)
      && single_spaced rest
  end.

Definition is_finished (ev : event) : bool :=
  match ev with FinishedSignal _ => true | _ => false end.

(** The external calls of a trace, in the order they are made. *)
Fixpoint externals (t : list event) : list event :=
  match t with
  | [] => []
  | ev :: rest => if is_external ev then ev :: externals rest else externals rest
  end.

(** The items of the two resolution combo boxes (lines 265 and 311). *)
Definition resolution_items : list string := ["720"; "1080"; "1440"; "2160"].

(** [n] downloads of the same name in a row, each file being created
    before the next path is chosen. *)
Fixpoint successive_paths (fs : gset string)
    (save_dir base_filename ext : string) (fallback_id : option string)
    (n : nat) : list string :=
  match n with
  | O => []
  | S n' =>
      match make_unique_filepath fs save_dir base_filename ext
              (S (size fs)) fallback_id with
      | Some p =>
          p :: successive_paths ({[ p ]} ∪ fs) save_dir base_filename ext
                 fallback_id n'
      | None => []
      end
  end.

(** * Properties *)

(** ** Strings and paths *)

Lemma string_app_cons a s t : String a s +:+ t = String a (s +:+ t).
Proof. reflexivity. Qed.

Lemma string_app_length s t :
  String.length (s +:+ t) = (String.length s + String.length t)%nat.
Proof.
  induction s as [|a s IH]; [reflexivity|].
  rewrite string_app_cons. simpl. now rewrite IH.
Qed.

(** Appending the same tail is injective. *)
Lemma string_app_inj_r t s1 s2 : s1 +:+ t = s2 +:+ t -> s1 = s2.
Proof.
  revert s2. induction s1 as [|a s1 IH]; intros [|b s2] H.
  - reflexivity.
  - apply (f_equal String.length) in H.
    rewrite !string_app_length in H. simpl in H. lia.
  - apply (f_equal String.length) in H.
    rewrite !string_app_length in H. simpl in H. lia.
  - rewrite !string_app_cons in H. injection H as -> H.
    f_equal. now apply IH.
Qed.

Lemma startswith_after_base c base r1 r2 :
  PyStr.startswith c (base +:+ "_" +:+ r1)
  = PyStr.startswith c (base +:+ "_" +:+ r2).
Proof. destruct base; reflexivity. Qed.

(** [os.path.join(a, _)] is injective on names that are both absolute or
    both relative. *)
Lemma join_inj a b1 b2 :
  PyStr.startswith PosixPath.sep b1 = PyStr.startswith PosixPath.sep b2 ->
  PosixPath.join a b1 = PosixPath.join a b2 -> b1 = b2.
Proof.
  unfold PosixPath.join. intros <-.
  destruct (PyStr.startswith PosixPath.sep b1); [easy|].
  destruct (negb (PyStr.truthy a) || PyStr.endswith PosixPath.sep a); intros H.
  - now apply (inj (String.app a)) in H.
  - apply (inj (String.app a)) in H. now injection H.
Qed.

(** ** [make_unique_filepath] *)

Section MakeUniqueFacts.

Variable fs : gset string.
Variables save_dir base_filename ext : string.

Local Abbreviation cand3 := (candidate3 save_dir base_filename ext).
Local Abbreviation loop := (numeric_loop fs save_dir base_filename ext).

(** Distinct counters give distinct candidate paths. *)
Lemma candidate3_inj i j : cand3 i = cand3 j -> i = j.
Proof.
  unfold candidate3. intros H.
  apply join_inj in H; [|apply startswith_after_base].
  apply (inj (String.app base_filename)) in H.
  apply (inj (String.app "_")) in H.
  apply string_app_inj_r in H.
  now apply (inj pretty) in H.
Qed.

Lemma path_exists_true p : path_exists fs p = true <-> p ∈ fs.
Proof. unfold path_exists. apply bool_decide_eq_true. Qed.

Lemma path_exists_false p : path_exists fs p = false <-> p ∉ fs.
Proof. unfold path_exists. apply bool_decide_eq_false. Qed.

(** A loop that is still running has found every candidate taken. *)
Lemma numeric_loop_None fuel i :
  loop fuel i = None ->
  forall j, i <= j < i + Z.of_nat fuel -> cand3 j ∈ fs.
Proof.
  revert i. induction fuel as [|fuel IH]; intros i H j Hj; [lia|].
  simpl in H.
  destruct (path_exists fs (cand3 i)) eqn:E; simpl in H; [|discriminate].
  destruct (decide (j = i)) as [->|Hne].
  - now apply path_exists_true.
  - apply (IH (i + 1)); [assumption|lia].
Qed.

(** A loop that returns has stopped at the least free counter. *)
Lemma numeric_loop_Some fuel i p :
  loop fuel i = Some p ->
  exists j, i <= j < i + Z.of_nat fuel /\ p = cand3 j /\ (cand3 j ∉ fs)
            /\ (forall k, i <= k < j -> cand3 k ∈ fs).
Proof.
  revert i. induction fuel as [|fuel IH]; intros i H; [discriminate|].
  simpl in H.
  destruct (path_exists fs (cand3 i)) eqn:E; simpl in H.
  - destruct (IH _ H) as (j & Hj & -> & Hfree & Hbelow).
    exists j. repeat split; try assumption; try lia.
    intros k Hk. destruct (decide (k = i)) as [->|Hne].
    + now apply path_exists_true.
    + apply Hbelow. lia.
  - injection H as <-. exists i. repeat split; try lia.
    now apply path_exists_false.
Qed.

(** More fuel does not change what the loop returns. *)
Lemma numeric_loop_more_fuel n fuel i p :
  (n <= fuel)%nat -> loop n i = Some p -> loop fuel i = Some p.
Proof.
  revert fuel i. induction n as [|n IH]; intros fuel i Hle H; [discriminate|].
  destruct fuel as [|fuel]; [lia|]. simpl in *.
  destruct (negb _); [assumption|].
  apply IH; [lia|assumption].
Qed.

(** Only [size fs] candidates can be taken. *)
Lemma taken_candidates_bound i (n : nat) :
  (forall j, i <= j < i + Z.of_nat n -> cand3 j ∈ fs) -> (n <= size fs)%nat.
Proof.
  intros Hall.
  set (l := cand3 <$> seqZ i (Z.of_nat n)).
  assert (Hnd : NoDup l).
  { apply NoDup_fmap_2_strong; [|apply NoDup_seqZ].
    intros x y _ _. apply candidate3_inj. }
  assert (Hsub : list_to_set (C := gset string) l ⊆ fs).
  { intros p Hp. apply elem_of_list_to_set in Hp.
    apply list_elem_of_fmap in Hp as (j & -> & Hj).
    apply elem_of_seqZ in Hj. apply Hall. lia. }
  apply subseteq_size in Hsub.
  rewrite size_list_to_set in Hsub by assumption.
  unfold l in Hsub. rewrite length_fmap, length_seqZ in Hsub. lia.
Qed.

(** With more fuel than existing paths the loop returns. *)
Lemma numeric_loop_returns fuel i :
  (size fs < fuel)%nat -> is_Some (loop fuel i).
Proof.
  intros Hfuel. destruct (loop fuel i) eqn:E; [eauto|].
  pose proof (taken_candidates_bound i fuel (numeric_loop_None _ _ E)). lia.
Qed.

(** The outcome of the whole function, case by case. *)
Lemma make_unique_filepath_cases fuel fallback_id p :
  make_unique_filepath fs save_dir base_filename ext fuel fallback_id = Some p ->
  let c1 := candidate save_dir base_filename ext in
  ((c1 ∉ fs) /\ p = c1)
  \/ (c1 ∈ fs /\ exists fid, fallback_id = Some fid /\ PyStr.truthy fid = true
                           /\ (candidate2 save_dir base_filename ext fid ∉ fs)
                           /\ p = candidate2 save_dir base_filename ext fid)
  \/ (c1 ∈ fs
      /\ (fallback_given fallback_id = false
          \/ exists fid, fallback_id = Some fid
                        /\ candidate2 save_dir base_filename ext fid ∈ fs)
      /\ loop fuel 1 = Some p).
Proof.
  unfold make_unique_filepath. cbv zeta.
  destruct (path_exists fs (candidate _ _ _)) eqn:E1; simpl.
  2:{ intros [= <-]. left. split; [now apply path_exists_false|reflexivity]. }
  apply path_exists_true in E1.
  destruct fallback_id as [fid|]; simpl.
  - destruct (PyStr.truthy fid) eqn:Et; simpl.
    + destruct (path_exists fs (candidate2 _ _ _ fid)) eqn:E2; simpl.
      * apply path_exists_true in E2. intros H. right. right.
        split; [assumption|]. split; [right; eauto|assumption].
      * apply path_exists_false in E2. intros [= <-]. right. left.
        split; [assumption|]. exists fid. auto.
    + intros H. right. right. auto.
  - intros H. right. right. auto.
Qed.

Lemma make_unique_filepath_returns fuel fallback_id :
  (size fs < fuel)%nat ->
  is_Some (make_unique_filepath fs save_dir base_filename ext fuel fallback_id).
Proof.
  intros Hfuel. unfold make_unique_filepath.
  pose proof (numeric_loop_returns fuel 1 Hfuel) as Hloop.
  destruct (negb _); [eauto|].
  destruct fallback_id as [fid|]; [|assumption].
  destruct (_ && _); [eauto|assumption].
Qed.

End MakeUniqueFacts.

Example make_unique_free :
  make_unique_filepath ∅ "/dl" "clip" "mp4" 0 (Some "abc") = Some "/dl/clip.mp4".
Proof. vm_compute. reflexivity. Qed.

Example make_unique_fallback :
  make_unique_filepath {[ "/dl/clip.mp4" ]} "/dl" "clip" "mp4" 0 (Some "abc")
  = Some "/dl/clip_abc.mp4".
Proof. vm_compute. reflexivity. Qed.

Example make_unique_numeric :
  make_unique_filepath {[ "/dl/clip.mp4"; "/dl/clip_abc.mp4"; "/dl/clip_1.mp4" ]}
    "/dl" "clip" "mp4" 4 (Some "abc")
  = Some "/dl/clip_2.mp4".
Proof. vm_compute. reflexivity. Qed.



(** C10.  The counter loop of [make_unique_filepath] terminates: among the
    counters [1 .. size fs + 1] one names a path that does not exist, the
    loop returns at the least such counter, and the function returns. *)
Theorem make_unique_filepath_terminates
    (fs : gset string) (save_dir base_filename ext : string)
    (fallback_id : option string) (fuel : nat) :
  (size fs < fuel)%nat ->
  (exists i, 1 <= i <= Z.of_nat (size fs) + 1
             /\ path_exists fs (candidate3 save_dir base_filename ext i) = false
             /\ numeric_loop fs save_dir base_filename ext fuel 1
                = Some (candidate3 save_dir base_filename ext i))
  /\ is_Some (make_unique_filepath fs save_dir base_filename ext fuel fallback_id).
Proof.
  intros Hfuel. split.
  - destruct (numeric_loop_returns fs save_dir base_filename ext
                (S (size fs)) 1) as [p Hp]; [lia|].
    pose proof Hp as Hq.
    apply numeric_loop_Some in Hq as (i & Hi & -> & Hfree & _).
    exists i. split; [lia|]. split; [now apply path_exists_false|].
    apply (numeric_loop_more_fuel _ _ _ _ (S (size fs))); [lia|assumption].
  - now apply make_unique_filepath_returns.
Qed.

Lemma make_unique_filepath_terminates_witness :
  is_Some (make_unique_filepath {[ "/dl/clip.mp4"; "/dl/clip_1.mp4" ]}
             "/dl" "clip" "mp4" 3 None).
Proof.
  apply (make_unique_filepath_terminates
           {[ "/dl/clip.mp4"; "/dl/clip_1.mp4" ]} "/dl" "clip" "mp4" None 3).
  vm_compute. lia.
Defined.

(** ** [clean_title] *)

Section AllChars.

Variable p : ascii -> bool.

Lemma all_chars_sub_delete cls s :
  PyStr.all_chars p s = true ->
  PyStr.all_chars p (Title.sub_delete cls s) = true.
Proof.
  induction s as [|a s IH]; simpl; [easy|].
  intros [Ha Hs]%andb_true_iff. destruct (cls a); simpl; auto.
  rewrite Ha. simpl. auto.
Qed.

Lemma all_chars_sub_space cls s :
  p " "%char = true ->
  PyStr.all_chars p s = true ->
  PyStr.all_chars p (Title.sub_space cls s) = true.
Proof.
  intros Hsp. induction s as [|a s IH]; simpl; [easy|].
  intros [Ha Hs]%andb_true_iff. rewrite (IH Hs).
  destruct (cls a); now rewrite ?Hsp, ?Ha.
Qed.

Lemma all_chars_sub_runs in_run s :
  p " "%char = true ->
  PyStr.all_chars p s = true ->
  PyStr.all_chars p (Title.sub_runs in_run s) = true.
Proof.
  intros Hsp. revert in_run. induction s as [|a s IH]; simpl; [easy|].
  intros in_run [Ha Hs]%andb_true_iff.
  destruct (PyStr.is_space a); [destruct in_run|]; simpl;
    rewrite ?Hsp, ?Ha; simpl; auto.
Qed.

Lemma all_chars_lstrip s :
  PyStr.all_chars p s = true -> PyStr.all_chars p (PyStr.lstrip s) = true.
Proof.
  induction s as [|a s IH]; simpl; [easy|].
  intros H. destruct (PyStr.is_space a); [|exact H].
  apply andb_true_iff in H as [_ Hs]. auto.
Qed.

Lemma all_chars_rstrip s :
  PyStr.all_chars p s = true -> PyStr.all_chars p (PyStr.rstrip s) = true.
Proof.
  induction s as [|a s IH]; simpl; [easy|].
  intros [Ha Hs]%andb_true_iff.
  destruct (PyStr.is_space a && negb _); simpl; [reflexivity|].
  rewrite Ha. simpl. auto.
Qed.

Lemma all_chars_strip s :
  PyStr.all_chars p s = true -> PyStr.all_chars p (PyStr.strip s) = true.
Proof. intros H. now apply all_chars_rstrip, all_chars_lstrip. Qed.

Lemma all_chars_prefix n s :
  PyStr.all_chars p s = true -> PyStr.all_chars p (PyStr.prefix n s) = true.
Proof.
  revert s. induction n as [|n IH]; intros [|a s]; simpl; try easy.
  intros [Ha Hs]%andb_true_iff. rewrite Ha. simpl. auto.
Qed.

Lemma all_chars_impl (q : ascii -> bool) s :
  (forall a, p a = true -> q a = true) ->
  PyStr.all_chars p s = true -> PyStr.all_chars q s = true.
Proof.
  intros Hpq. induction s as [|a s IH]; simpl; [easy|].
  intros [Ha Hs]%andb_true_iff. rewrite (Hpq _ Ha). simpl. auto.
Qed.

End AllChars.

Lemma all_chars_deleted cls s :
  PyStr.all_chars (fun a => negb (cls a)) (Title.sub_delete cls s) = true.
Proof.
  induction s as [|a s IH]; simpl; [reflexivity|].
  destruct (cls a) eqn:E; simpl; [assumption|]. now rewrite E.
Qed.

Lemma all_chars_both p q s :
  PyStr.all_chars p s = true -> PyStr.all_chars q s = true ->
  PyStr.all_chars (fun a => p a && q a) s = true.
Proof.
  induction s as [|a s IH]; simpl; [easy|].
  intros [Ha Hs]%andb_true_iff [Ha' Hs']%andb_true_iff.
  rewrite Ha, Ha'. simpl. auto.
Qed.

Lemma encode_ascii_ignore_ascii title :
  PyStr.all_chars Title.is_ascii (Title.encode_ascii_ignore title) = true.
Proof.
  induction title as [|cp title IH]; simpl; [reflexivity|].
  destruct (cp <? 128)%N eqn:E; simpl; [|assumption].
  rewrite IH, andb_true_r. unfold Title.is_ascii.
  apply N.ltb_lt in E. rewrite N_ascii_embedding by lia. now apply N.ltb_lt.
Qed.

Lemma prefix_length n s : (String.length (PyStr.prefix n s) <= n)%nat.
Proof.
  revert s. induction n as [|n IH]; intros [|a s]; simpl; try lia.
  specialize (IH s). lia.
Qed.

(** A character that survives line 25 and is ASCII is none of the
    excluded ones. *)
Lemma kept_not_forbidden a :
  Title.is_ascii a && negb (Title.not_word_space_hyphen a) = true ->
  negb (Title.in_class Title.forbidden_chars a) = true.
Proof.
  destruct a as [[] [] [] [] [] [] [] []]; vm_compute; congruence.
Qed.

(** The sanitized title is ASCII and free of the excluded characters. *)
Lemma sanitized_chars title :
  PyStr.all_chars
    (fun a => Title.is_ascii a && negb (Title.not_word_space_hyphen a))
    (Title.sanitized title) = true.
Proof.
  unfold Title.sanitized.
  apply all_chars_strip, all_chars_sub_runs; [reflexivity|].
  apply all_chars_both.
  - apply all_chars_sub_delete, all_chars_sub_space; [reflexivity|].
    apply all_chars_sub_delete, encode_ascii_ignore_ascii.
  - apply all_chars_deleted.
Qed.

Lemma clean_title_unfold title :
  Title.clean_title title =
    match title with
    | [] => "video"
    | _ :: _ =>
        if PyStr.truthy (PyStr.prefix 120 (Title.sanitized title))
        then PyStr.prefix 120 (Title.sanitized title) else "video"
    end.
Proof. destruct title; reflexivity. Qed.

Lemma string_app_nil_r s : s +:+ "" = s.
Proof. induction s as [|a s IH]; [reflexivity|]. now rewrite string_app_cons, IH. Qed.

Lemma string_app_assoc s t u : (s +:+ t) +:+ u = s +:+ t +:+ u.
Proof.
  induction s as [|a s IH]; [reflexivity|]. now rewrite !string_app_cons, IH.
Qed.

Example clean_title_example :
  Title.clean_title
    (N_of_ascii <$> list_ascii_of_string "Hello: World? #tag @me  a/b\c.d!")
  = "Hello World tag me a b cd".
Proof. vm_compute. reflexivity. Qed.

Example clean_title_non_ascii : Title.clean_title [233%N; 8364%N] = "video".
Proof. vm_compute. reflexivity. Qed.

(** ** Computations and traces *)

Lemma bind_trace_ok {A B} (m : M A) (f : A -> M B) t a :
  m = (t, Ok a) -> (m ≫= f) = (t ++ trace (f a), outcome (f a)).
Proof. intros ->. unfold_M. now destruct (f a). Qed.

Lemma bind_trace_raise {A B} (m : M A) (f : A -> M B) t e :
  m = (t, Raise e) -> (m ≫= f) = (t, Raise e).
Proof. now intros ->. Qed.

(** ** [ffprobe_get_height] *)

Section ProbeFacts.

Variable env : environment.

(** One guarded probe: it never raises, runs one subprocess, and yields
    the numeric output if there is one. *)
Lemma guarded_probe tool path :
  try_except (probe_block env tool path) (fun _ => mret None)
  = ([CheckOutput (probe_cmd tool path)],
     Ok (numeric_output (check_output env (probe_cmd tool path)))).
Proof.
  unfold probe_block, numeric_output, call_check_output. unfold_M.
  destruct (check_output env (probe_cmd tool path)) as [out|e]; simpl;
    [|reflexivity].
  destruct (PyStr.strip out) as [|a rest] eqn:E; simpl; [reflexivity|].
  destruct (PyStr.int _); reflexivity.
Qed.

Lemma ffprobe_get_height_value path :
  let primary := numeric_output (check_output env (probe_cmd "ffprobe" path)) in
  let fallback := numeric_output (check_output env (probe_cmd "ffmpeg" path)) in
  ffprobe_get_height env path
  = (CheckOutput (probe_cmd "ffprobe" path)
       :: match primary with
          | Some _ => []
          | None => [CheckOutput (probe_cmd "ffmpeg" path)]
          end,
     Ok match primary, fallback with
        | Some h, _ => h
        | None, Some h => h
        | None, None => 0
        end).
Proof.
  intros primary fallback. unfold ffprobe_get_height.
  rewrite (bind_trace_ok _ _ _ _ (guarded_probe "ffprobe" path)).
  fold primary. destruct primary as [h|]; [reflexivity|].
  rewrite (bind_trace_ok _ _ _ _ (guarded_probe "ffmpeg" path)).
  fold fallback. destruct fallback as [h|]; reflexivity.
Qed.

End ProbeFacts.

(** C7.  [ffprobe_get_height] never raises.  It returns the integer read
    from the primary probe if that yields one, else the integer read from
    the fallback probe if that yields one, else 0; a probe that raises or
    prints nothing yields none.  The fallback runs only when the primary
    probe yielded no integer. *)
Theorem ffprobe_get_height_total (env : environment) (path : string) :
  let primary := numeric_output (check_output env (probe_cmd "ffprobe" path)) in
  let fallback := numeric_output (check_output env (probe_cmd "ffmpeg" path)) in
  ffprobe_get_height env path
  = (CheckOutput (probe_cmd "ffprobe" path)
       :: match primary with
          | Some _ => []
          | None => [CheckOutput (probe_cmd "ffmpeg" path)]
          end,
     Ok match primary, fallback with
        | Some h, _ => h
        | None, Some h => h
        | None, None => 0
        end)
  /\ (forall e, numeric_output (Raise e) = None)
  /\ (forall out, PyStr.strip out = "" -> numeric_output (Ok out) = None).
Proof.
  intros primary fallback. split; [|split].
  - apply ffprobe_get_height_value.
  - reflexivity.
  - intros out E. simpl. now rewrite E.
Qed.

Lemma ffprobe_get_height_total_witness :
  ffprobe_get_height
    (Sample.world None (Ok ("720" +:+ Sample.newline)) ∅) "/dl/clip.mp4"
  = ([CheckOutput (probe_cmd "ffprobe" "/dl/clip.mp4")], Ok 720)
  /\ numeric_output (Ok Sample.newline) = None.
Proof.
  destruct (ffprobe_get_height_total
              (Sample.world None (Ok ("720" +:+ Sample.newline)) ∅)
              "/dl/clip.mp4") as (Hvalue & _ & Hempty).
  split; [exact Hvalue|]. apply Hempty. reflexivity.
Defined.

(** ** The workers *)

Lemma count_events_app p t1 t2 :
  count_events p (t1 ++ t2) = (count_events p t1 + count_events p t2)%nat.
Proof. induction t1 as [|ev t1 IH]; simpl; [reflexivity|]. rewrite IH. lia. Qed.

Section WorkerFacts.

Variable env : environment.

(** The probe never raises and runs one or two [check_output] calls,
    nothing else. *)
Lemma ffprobe_get_height_shape path :
  exists t h,
    ffprobe_get_height env path = (t, Ok h)
    /\ count_events is_download t = 0%nat
    /\ count_events is_transcode t = 0%nat
    /\ (count_events is_probe t <= 2)%nat.
Proof.
  pose proof (ffprobe_get_height_value env path) as H. cbv zeta in H.
  eexists _, _. split; [exact H|].
  destruct (numeric_output _); simpl; repeat split; lia.
Qed.

Lemma final_height_of_shape dl :
  exists t h,
    final_height_of env dl = (t, Ok h)
    /\ count_events is_download t = 0%nat
    /\ count_events is_transcode t = 0%nat
    /\ (count_events is_probe t <= 2)%nat.
Proof.
  unfold final_height_of.
  destruct (info_height dl) as [h|]; [destruct (h =? 0)|];
    try apply ffprobe_get_height_shape.
  exists [], h. simpl. repeat split; lia.
Qed.

(** What follows the probe in [DownloadWorker.run] runs ffmpeg at most
    once, and nothing else. *)
Lemma dw_after_probe_shape self file h :
  count_events is_download (trace (dw_after_probe env self file h)) = 0%nat
  /\ count_events is_probe (trace (dw_after_probe env self file h)) = 0%nat
  /\ (count_events is_transcode (trace (dw_after_probe env self file h)) <= 1)%nat.
Proof.
  unfold dw_after_probe, call_run. unfold_M.
  repeat match goal with
         | |- context [if ?b then _ else _] => destruct b
         | |- context [subprocess_run env ?c] => destruct (subprocess_run env c)
         end; simpl; repeat split; lia.
Qed.

Lemma cw_after_probe_shape self h :
  count_events is_download (trace (cw_after_probe env self h)) = 0%nat
  /\ count_events is_probe (trace (cw_after_probe env self h)) = 0%nat
  /\ (count_events is_transcode (trace (cw_after_probe env self h)) <= 1)%nat.
Proof.
  unfold cw_after_probe, call_run, target_gt. unfold_M.
  destruct (cw_target_resolution self) as [t|]; simpl;
  repeat match goal with
         | |- context [if ?b then _ else _] => destruct b
         | |- context [subprocess_run env ?c] => destruct (subprocess_run env c)
         end; simpl; repeat split; lia.
Qed.

(** [DownloadWorker.run] up to the end of the probe, when the download
    succeeds. *)
Lemma dw_body_downloaded self dl t h :
  ydl_download env (dw_url self) (dw_outtmpl self) = Ok dl ->
  final_height_of env dl = (t, Ok h) ->
  dw_body env self
  = ([StatusSignal "Starting download...";
      ExtractorDownload (dw_url self) (dw_outtmpl self);
      StatusSignal ("Downloaded: " +:+ downloaded_file dl)]
       ++ t
       ++ StatusSignal ("Detected source height: " +:+ pretty h +:+ "p")
       :: trace (dw_after_probe env self (downloaded_file dl) h),
     outcome (dw_after_probe env self (downloaded_file dl) h)).
Proof.
  intros Hdl Hh. unfold dw_body, call_extractor. unfold_M.
  rewrite Hdl, Hh. simpl.
  destruct (dw_after_probe env self (downloaded_file dl) h). reflexivity.
Qed.

(** [ConvertFileWorker.run] up to the end of the probe, for an existing
    input and an MP4 target. *)
Lemma cw_body_probed self t h :
  os_path_exists env (cw_input_path self) = true ->
  cw_output_type self = "MP4" ->
  ffprobe_get_height env (cw_input_path self) = (t, Ok h) ->
  cw_body env self
  = (t ++ StatusSignal ("Source resolution detected: " +:+ pretty h +:+ "p")
       :: trace (cw_after_probe env self h),
     outcome (cw_after_probe env self h)).
Proof.
  intros Hex Hty Hh. unfold cw_body. rewrite Hex, Hty. simpl.
  unfold_M. rewrite Hh.
  destruct (cw_after_probe env self h). reflexivity.
Qed.

Lemma try_except_ok {A} (body : M A) handler t a :
  body = (t, Ok a) -> try_except body handler = (t, Ok a).
Proof. now intros ->. Qed.

(** The three ways the resolution check of [DownloadWorker.run] ends. *)
Lemma dw_after_probe_upscale self file h :
  dw_convert self = true -> dw_output_type self = "MP4" ->
  0 < h -> h < dw_target_resolution self ->
  dw_after_probe env self file h
  = ([FinishedSignal (msg_no_upscaling h (dw_target_resolution self))], Ok tt).
Proof.
  intros Hc Ht Hpos Hlt. unfold dw_after_probe. rewrite Hc, Ht. simpl.
  destruct (Z.eqb_spec h 0); [lia|].
  destruct (Z.gtb_spec (dw_target_resolution self) h); [|lia].
  destruct (Z.gtb_spec h 0); [|lia]. reflexivity.
Qed.

Lemma dw_after_probe_equal self file h :
  dw_convert self = true -> dw_output_type self = "MP4" ->
  h = dw_target_resolution self ->
  dw_after_probe env self file h
  = ((if h =? 0 then unknown_height_warning else [])
       ++ [FinishedSignal (msg_equal h)], Ok tt).
Proof.
  intros Hc Ht Heq. unfold dw_after_probe. rewrite Hc, Ht, <- Heq. simpl.
  rewrite Z.eqb_refl.
  destruct (Z.gtb_spec h h); [lia|]. simpl.
  destruct (h =? 0); reflexivity.
Qed.

Lemma dw_after_probe_unknown self file :
  dw_convert self = true -> dw_output_type self = "MP4" ->
  dw_target_resolution self <> 0 ->
  let target := dw_target_resolution self in
  let cmd := scale_cmd file target (scaled_path file target) in
  dw_after_probe env self file 0
  = (unknown_height_warning
       ++ [StatusSignal ("Converting to " +:+ pretty target +:+ "p -> "
                           +:+ scaled_path file target);
           SubprocessRun cmd]
       ++ match subprocess_run env cmd with
          | Ok _ => [FinishedSignal ("Conversion completed: "
                                       +:+ scaled_path file target)]
          | Raise _ => []
          end,
     subprocess_run env cmd).
Proof.
  intros Hc Ht Hne target cmd. subst cmd target.
  unfold dw_after_probe. rewrite Hc, Ht.
  destruct (dw_target_resolution self) as [|q|q]; [congruence| |];
    unfold call_run; unfold_M; simpl;
    destruct (subprocess_run env _) as [[]|e]; reflexivity.
Qed.

(** The same for [ConvertFileWorker.run]. *)
Lemma cw_after_probe_upscale self t h :
  cw_target_resolution self = Some t -> h <> 0 -> h < t ->
  cw_after_probe env self h = ([FinishedSignal (msg_no_upscaling h t)], Ok tt).
Proof.
  intros Ht Hne Hlt. unfold cw_after_probe. rewrite Ht. simpl.
  destruct (Z.eqb_spec h 0); [congruence|]. unfold_M.
  destruct (Z.gtb_spec t h); [|lia]. reflexivity.
Qed.

Lemma cw_after_probe_equal self h :
  cw_target_resolution self = Some h -> h <> 0 ->
  cw_after_probe env self h = ([FinishedSignal (msg_equal h)], Ok tt).
Proof.
  intros Ht Hne. unfold cw_after_probe. rewrite Ht. simpl.
  destruct (Z.eqb_spec h 0); [congruence|]. unfold_M.
  destruct (Z.gtb_spec h h); [lia|]. simpl.
  rewrite Z.eqb_refl. reflexivity.
Qed.

Lemma cw_after_probe_unknown self :
  cw_after_probe env self 0
  = ([StatusSignal "Warning: couldn't detect source height; aborting conversion.";
      FinishedSignal "Conversion aborted: unknown source resolution."], Ok tt).
Proof. reflexivity. Qed.

End WorkerFacts.

(** C1.  No upscaling: in a video conversion whose detected source height
    [h] is positive and below the requested target, neither worker runs
    ffmpeg; the run ends with the message that the conversion was skipped
    and that there is no upscaling. *)
Theorem workers_do_not_upscale (env : environment) :
  (forall (self : DownloadWorker) (dl : download) (h : Z),
      ydl_download env (dw_url self) (dw_outtmpl self) = Ok dl ->
      outcome (final_height_of env dl) = Ok h ->
      dw_convert self = true -> dw_output_type self = "MP4" ->
      0 < h -> h < dw_target_resolution self ->
      count_events is_transcode (trace (dw_run env self)) = 0%nat
      /\ last (trace (dw_run env self))
         = Some (FinishedSignal (msg_no_upscaling h (dw_target_resolution self)))
      /\ outcome (dw_run env self) = Ok tt)
  /\ (forall (self : ConvertFileWorker) (t h : Z),
      os_path_exists env (cw_input_path self) = true ->
      cw_output_type self = "MP4" ->
      cw_target_resolution self = Some t ->
      outcome (ffprobe_get_height env (cw_input_path self)) = Ok h ->
      0 < h -> h < t ->
      count_events is_transcode (trace (cw_run env self)) = 0%nat
      /\ last (trace (cw_run env self)) = Some (FinishedSignal (msg_no_upscaling h t))
      /\ outcome (cw_run env self) = Ok tt).
Proof.
  split.
  - intros self dl h Hdl Hout Hc Hty Hpos Hlt.
    height_known (final_height_of_shape env dl) Hout.
    unfold dw_run.
    rewrite (dw_body_downloaded env self dl _ _ Hdl Hrun).
    rewrite (dw_after_probe_upscale env self _ h Hc Hty Hpos Hlt). simpl.
    repeat split.
    + rewrite count_events_app. simpl. lia.
    + now rewrite app_comm_cons, last_app_cons.
  - intros self t h Hex Hty Htarget Hout Hpos Hlt.
    height_known (ffprobe_get_height_shape env (cw_input_path self)) Hout.
    unfold cw_run.
    rewrite (cw_body_probed env self _ _ Hex Hty Hrun).
    rewrite (cw_after_probe_upscale env self t h Htarget) by lia. simpl.
    repeat split.
    + rewrite count_events_app. simpl. lia.
    + now rewrite last_app_cons.
Qed.

Lemma workers_do_not_upscale_witness :
  last (trace (dw_run (Sample.world (Some 720) Sample.no_probe ∅)
                 (Sample.download_worker true 1080 "MP4")))
  = Some (FinishedSignal
            "Skipped conversion: source (720p) is lower than target (1080p). No upscaling.")
  /\ last (trace (cw_run (Sample.world None (Ok "720") {[ "/dl/clip.mp4" ]})
                    (Sample.convert_worker "MP4" (Some 1080))))
     = Some (FinishedSignal
               "Skipped conversion: source (720p) is lower than target (1080p). No upscaling.").
Proof.
  split.
  - apply (proj1 (workers_do_not_upscale (Sample.world (Some 720) Sample.no_probe ∅))
             (Sample.download_worker true 1080 "MP4")
             {| info_height := Some 720; downloaded_file := "/dl/clip.mp4" |}
             720); try reflexivity; lia.
  - apply (proj2 (workers_do_not_upscale (Sample.world None (Ok "720") {[ "/dl/clip.mp4" ]}))
             (Sample.convert_worker "MP4" (Some 1080)) 1080 720);
      try reflexivity; lia.
Defined.

(** C4.  Errors are caught and surfaced as a status string: neither
    [run] ever ends in an exception, and when the body raises, the run is
    the body's events followed by one [finished_signal] whose message ends
    with the error's text. *)
Theorem errors_surface_as_status (env : environment) :
  (forall self : DownloadWorker,
      outcome (dw_run env self) = Ok tt
      /\ forall e, outcome (dw_body env self) = Raise e ->
           trace (dw_run env self)
           = trace (dw_body env self)
               ++ [FinishedSignal ("Error during download/conversion: "
                                     +:+ exn_text e)])
  /\ (forall self : ConvertFileWorker,
      outcome (cw_run env self) = Ok tt
      /\ forall e, outcome (cw_body env self) = Raise e ->
           trace (cw_run env self)
           = trace (cw_body env self)
               ++ [FinishedSignal ("Error during conversion: " +:+ exn_text e)]).
Proof.
  split; intros self.
  - unfold dw_run, try_except.
    destruct (dw_body env self) as [t [[]|e]]; simpl; split; try reflexivity.
    + discriminate.
    + now intros e' [= <-].
  - unfold cw_run, try_except.
    destruct (cw_body env self) as [t [[]|e]]; simpl; split; try reflexivity.
    + discriminate.
    + now intros e' [= <-].
Qed.

Lemma errors_surface_as_status_witness :
  dw_run Sample.offline (Sample.download_worker true 720 "MP4")
  = ([StatusSignal "Starting download...";
      ExtractorDownload "https://example.org/v/1" "/dl/clip.%(ext)s";
      FinishedSignal
        "Error during download/conversion: Unable to download webpage"],
     Ok tt)
  /\ last (trace (cw_run Sample.offline (Sample.convert_worker "WAV" None)))
     = Some (FinishedSignal
               "Error during conversion: No such file or directory: 'ffmpeg'").
Proof.
  destruct (errors_surface_as_status Sample.offline) as [Hdw Hcw].
  split.
  - destruct (Hdw (Sample.download_worker true 720 "MP4")) as [Hok Hraise].
    specialize (Hraise (Exception "DownloadError" "Unable to download webpage")
                  eq_refl).
    destruct (dw_run Sample.offline (Sample.download_worker true 720 "MP4"))
      as [t r].
    simpl in Hok, Hraise. now rewrite Hok, Hraise.
  - destruct (Hcw (Sample.convert_worker "WAV" None)) as [_ Hraise].
    rewrite (Hraise (Exception "FileNotFoundError"
                       "No such file or directory: 'ffmpeg'") eq_refl).
    reflexivity.
Defined.

(** C6, as stated, fails: a download followed by the MP3 conversion is two
    blocking external calls in one [DownloadWorker.run], and probing then
    scaling a selected file is two in one [ConvertFileWorker.run]. *)
Lemma single_external_call_counterexample :
  count_events is_external
    (trace (dw_run (Sample.world (Some 1080) Sample.no_probe ∅)
              (Sample.download_worker false 1080 "MP3"))) = 2%nat
  /\ count_events is_external
       (trace (cw_run (Sample.world None (Ok "1080") {[ "/dl/clip.mp4" ]})
                 (Sample.convert_worker "MP4" (Some 720)))) = 2%nat.
Proof. split; vm_compute; reflexivity. Qed.

Lemma external_call_counts (env : environment) :
  (forall self : DownloadWorker,
      count_events is_download (trace (dw_run env self)) = 1%nat
      /\ (count_events is_probe (trace (dw_run env self)) <= 2)%nat
      /\ (count_events is_transcode (trace (dw_run env self)) <= 1)%nat)
  /\ (forall self : ConvertFileWorker,
      count_events is_download (trace (cw_run env self)) = 0%nat
      /\ (count_events is_probe (trace (cw_run env self)) <= 2)%nat
      /\ (count_events is_transcode (trace (cw_run env self)) <= 1)%nat).
Proof.
  split; intros self.
  - unfold dw_run, dw_body, call_extractor. unfold_M.
    destruct (ydl_download env _ _) as [dl|e]; simpl; [|repeat split; lia].
    destruct (final_height_of_shape env dl) as (t & h & -> & Hd & Ht & Hp).
    simpl.
    pose proof (dw_after_probe_shape env self (downloaded_file dl) h)
      as (Hd' & Hp' & Ht').
    destruct (dw_after_probe env self (downloaded_file dl) h) as [t' [[]|e]];
      simpl in *; rewrite ?count_events_app; simpl;
      rewrite ?count_events_app; simpl; repeat split; lia.
  - unfold cw_run, cw_body, call_run. unfold_M.
    destruct (negb _); simpl; [repeat split; lia|].
    destruct (_ || _); simpl.
    { destruct (String.eqb _ "MP3"); simpl;
        destruct (subprocess_run env _) as [[]|e]; simpl; repeat split; lia. }
    destruct (String.eqb _ "MP4"); simpl; [|repeat split; lia].
    destruct (ffprobe_get_height_shape env (cw_input_path self))
      as (t & h & -> & Hd & Ht & Hp).
    simpl.
    pose proof (cw_after_probe_shape env self h) as (Hd' & Hp' & Ht').
    destruct (cw_after_probe env self h) as [t' [[]|e]];
      simpl in *; rewrite ?count_events_app; simpl;
      rewrite ?count_events_app; simpl; repeat split; lia.
Qed.

Lemma externals_app t1 t2 : externals (t1 ++ t2) = externals t1 ++ externals t2.
Proof.
  induction t1 as [|ev t1 IH]; simpl; [reflexivity|].
  destruct (is_external ev); simpl; now rewrite IH.
Qed.

Section CallOrder.

Variable env : environment.

Lemma ffprobe_get_height_externals path :
  exists t h,
    ffprobe_get_height env path = (t, Ok h)
    /\ externals t = t /\ forallb is_probe t = true.
Proof.
  pose proof (ffprobe_get_height_value env path) as H. cbv zeta in H.
  eexists _, _. split; [exact H|].
  destruct (numeric_output _); split; reflexivity.
Qed.

(** The probes of the download worker: none unless the extractor gave no
    height. *)
Lemma final_height_of_externals dl :
  exists t h,
    final_height_of env dl = (t, Ok h)
    /\ externals t = t /\ forallb is_probe t = true
    /\ (t <> [] -> info_height dl = None \/ info_height dl = Some 0).
Proof.
  unfold final_height_of.
  destruct (info_height dl) as [h0|]; [destruct (Z.eqb_spec h0 0) as [->|Hne]|].
  - destruct (ffprobe_get_height_externals (downloaded_file dl))
      as (t & h & Hrun & Hext & Hall).
    exists t, h. auto.
  - exists [], h0. repeat split. intros H. now contradict H.
  - destruct (ffprobe_get_height_externals (downloaded_file dl))
      as (t & h & Hrun & Hext & Hall).
    exists t, h. auto.
Qed.

Lemma dw_after_probe_externals self file h :
  forallb is_transcode (externals (trace (dw_after_probe env self file h))) = true.
Proof.
  unfold dw_after_probe, call_run. unfold_M.
  destruct (String.eqb (dw_output_type self) "MP3").
  { destruct (subprocess_run env _) as [[]|e]; reflexivity. }
  destruct (dw_convert self && _); simpl; [|reflexivity].
  destruct (_ && (h >? 0)).
  { destruct (h =? 0); reflexivity. }
  destruct (h =? dw_target_resolution self).
  { destruct (h =? 0); reflexivity. }
  destruct (h =? 0); simpl;
    destruct (subprocess_run env _) as [[]|e]; reflexivity.
Qed.

Lemma cw_after_probe_externals self h :
  forallb is_transcode (externals (trace (cw_after_probe env self h))) = true.
Proof.
  unfold cw_after_probe, call_run, target_gt. unfold_M.
  destruct (h =? 0); simpl; [reflexivity|].
  destruct (cw_target_resolution self) as [target|]; simpl; [|reflexivity].
  destruct (target >? h); simpl; [reflexivity|].
  destruct (target =? h); simpl; [reflexivity|].
  destruct (subprocess_run env _) as [[]|e]; reflexivity.
Qed.

(** The external calls of [DownloadWorker.run], in order: the download,
    then the probes, then ffmpeg. *)
Lemma dw_run_externals self :
  exists probes runs,
    externals (trace (dw_run env self))
    = ExtractorDownload (dw_url self) (dw_outtmpl self) :: probes ++ runs
    /\ forallb is_probe probes = true
    /\ forallb is_transcode runs = true
    /\ (probes <> [] ->
        exists dl,
          ydl_download env (dw_url self) (dw_outtmpl self) = Ok dl
          /\ (info_height dl = None \/ info_height dl = Some 0)).
Proof.
  unfold dw_run, dw_body, call_extractor. unfold_M.
  destruct (ydl_download env _ _) as [dl|e] eqn:Hdl; simpl.
  2:{ exists [], []. repeat split. intros H. now contradict H. }
  destruct (final_height_of_externals dl) as (t & h & -> & Hext & Hall & Hwhy).
  simpl.
  pose proof (dw_after_probe_externals self (downloaded_file dl) h) as Hruns.
  exists t, (externals (trace (dw_after_probe env self (downloaded_file dl) h))).
  destruct (dw_after_probe env self (downloaded_file dl) h) as [t' [[]|e]];
    simpl in *; rewrite ?externals_app; simpl; rewrite ?externals_app; simpl;
    rewrite ?Hext, ?app_nil_r; repeat split; eauto.
Qed.

(** The external calls of [ConvertFileWorker.run], in order: the probes,
    then ffmpeg. *)
Lemma cw_run_externals self :
  exists probes runs,
    externals (trace (cw_run env self)) = probes ++ runs
    /\ forallb is_probe probes = true
    /\ forallb is_transcode runs = true.
Proof.
  unfold cw_run, cw_body, call_run. unfold_M.
  destruct (negb _); simpl; [exists [], []; auto|].
  destruct (_ || _); simpl.
  { destruct (String.eqb _ "MP3"); simpl;
      destruct (subprocess_run env _) as [[]|e]; simpl;
      eexists [], [_]; repeat split; reflexivity. }
  destruct (String.eqb _ "MP4"); simpl; [|exists [], []; auto].
  destruct (ffprobe_get_height_externals (cw_input_path self))
    as (t & h & -> & Hext & Hall).
  simpl.
  pose proof (cw_after_probe_externals self h) as Hruns.
  exists t, (externals (trace (cw_after_probe env self h))).
  destruct (cw_after_probe env self h) as [t' [[]|e]];
    simpl in *; rewrite ?externals_app; simpl; rewrite ?externals_app; simpl;
    rewrite ?Hext, ?app_nil_r; repeat split; eauto.
Qed.

End CallOrder.

(** C6, amended.  A worker can make more than one blocking external call,
    always in the same order.  [DownloadWorker.run] makes exactly one
    extractor download, first; then at most two probe calls, and these
    only when the download succeeded and the extractor reported no height
    (none, or 0); then at most one ffmpeg run.  [ConvertFileWorker.run]
    makes no download, at most two probe calls and then at most one ffmpeg
    run. *)
Theorem external_calls_bounded (env : environment) :
  (forall self : DownloadWorker,
      count_events is_download (trace (dw_run env self)) = 1%nat
      /\ (count_events is_probe (trace (dw_run env self)) <= 2)%nat
      /\ (count_events is_transcode (trace (dw_run env self)) <= 1)%nat
      /\ exists probes runs,
           externals (trace (dw_run env self))
           = ExtractorDownload (dw_url self) (dw_outtmpl self) :: probes ++ runs
           /\ forallb is_probe probes = true
           /\ forallb is_transcode runs = true
           /\ (probes <> [] ->
               exists dl,
                 ydl_download env (dw_url self) (dw_outtmpl self) = Ok dl
                 /\ (info_height dl = None \/ info_height dl = Some 0)))
  /\ (forall self : ConvertFileWorker,
      count_events is_download (trace (cw_run env self)) = 0%nat
      /\ (count_events is_probe (trace (cw_run env self)) <= 2)%nat
      /\ (count_events is_transcode (trace (cw_run env self)) <= 1)%nat
      /\ exists probes runs,
           externals (trace (cw_run env self)) = probes ++ runs
           /\ forallb is_probe probes = true
           /\ forallb is_transcode runs = true).
Proof.
  destruct (external_call_counts env) as [Hdw Hcw].
  split; intros self.
  - destruct (Hdw self) as (H1 & H2 & H3).
    repeat (split; [assumption|]). apply dw_run_externals.
  - destruct (Hcw self) as (H1 & H2 & H3).
    repeat (split; [assumption|]). apply cw_run_externals.
Qed.

Lemma external_calls_bounded_witness :
  exists dl,
    ydl_download (Sample.world None (Ok "1080") ∅)
      "https://example.org/v/1" "/dl/clip.%(ext)s" = Ok dl
    /\ (info_height dl = None \/ info_height dl = Some 0).
Proof.
  destruct (external_calls_bounded (Sample.world None (Ok "1080") ∅))
    as [Hdw _].
  destruct (Hdw (Sample.download_worker true 720 "MP4"))
    as (_ & _ & _ & probes & runs & Hext & _ & Hruns & Hwhy).
  apply Hwhy. intros ->. vm_compute in Hext. injection Hext as <-.
  discriminate Hruns.
Defined.

Lemma equal_resolution_general (env : environment) :
  (forall (self : DownloadWorker) (dl : download) (h : Z),
      ydl_download env (dw_url self) (dw_outtmpl self) = Ok dl ->
      outcome (final_height_of env dl) = Ok h ->
      dw_convert self = true -> dw_output_type self = "MP4" ->
      h = dw_target_resolution self ->
      count_events is_transcode (trace (dw_run env self)) = 0%nat
      /\ last (trace (dw_run env self)) = Some (FinishedSignal (msg_equal h))
      /\ outcome (dw_run env self) = Ok tt)
  /\ (forall (self : ConvertFileWorker) (h : Z),
      os_path_exists env (cw_input_path self) = true ->
      cw_output_type self = "MP4" ->
      outcome (ffprobe_get_height env (cw_input_path self)) = Ok h ->
      cw_target_resolution self = Some h ->
      h <> 0 ->
      count_events is_transcode (trace (cw_run env self)) = 0%nat
      /\ last (trace (cw_run env self)) = Some (FinishedSignal (msg_equal h))
      /\ outcome (cw_run env self) = Ok tt).
Proof.
  split.
  - intros self dl h Hdl Hout Hc Hty Heq.
    height_known (final_height_of_shape env dl) Hout.
    unfold dw_run.
    rewrite (dw_body_downloaded env self dl _ _ Hdl Hrun).
    rewrite (dw_after_probe_equal env self _ h Hc Hty Heq). simpl.
    repeat split.
    + rewrite !count_events_app. simpl. rewrite count_events_app.
      destruct (h =? 0); simpl; lia.
    + unfold unknown_height_warning.
      destruct (h =? 0); simpl; now rewrite !app_comm_cons, last_app_cons.
  - intros self h Hex Hty Hout Htarget Hne.
    height_known (ffprobe_get_height_shape env (cw_input_path self)) Hout.
    unfold cw_run.
    rewrite (cw_body_probed env self _ _ Hex Hty Hrun).
    rewrite (cw_after_probe_equal env self h Htarget Hne). simpl.
    repeat split.
    + rewrite count_events_app. simpl. lia.
    + now rewrite last_app_cons.
Qed.

(** Every resolution the GUI offers reads as a non-zero integer. *)
Lemma gui_resolutions_nonzero res_text :
  res_text ∈ resolution_items ->
  exists t, PyStr.int res_text = Some t /\ t <> 0.
Proof.
  unfold resolution_items. intros H.
  repeat (apply elem_of_cons in H as [->|H];
          [eexists; split; [vm_compute; reflexivity|discriminate]|]).
  inversion H.
Qed.

(** What [on_convert_file] checks and passes on before it starts a worker. *)
Lemma on_convert_file_started env file_path_text out_sel res_text w :
  on_convert_file env file_path_text out_sel res_text = Ok (StartConvert w) ->
  os_path_exists env (cw_input_path w) = true
  /\ exists t,
       PyStr.int res_text = Some t
       /\ cw_target_resolution w
          = if String.eqb (cw_output_type w) "MP4" then Some t else None.
Proof.
  unfold on_convert_file. cbv zeta.
  destruct (negb (PyStr.truthy _)); [discriminate|].
  destruct (os_path_exists env (PyStr.strip file_path_text)) eqn:Hex;
    simpl; [|discriminate].
  destruct (PyStr.int res_text) as [t|]; [|discriminate].
  intros [= <-]. simpl. eauto.
Qed.

(** C8.  Equal-resolution conversions are skipped.  When a resolution
    conversion is requested (the download worker with [convert] set and an
    MP4 target, the file worker with an existing input and an MP4 target)
    and the detected source height equals the requested target resolution,
    ffmpeg is not run and the run ends with the message that source and
    target resolution are equal.  For the file worker this needs the resolution
    not to be 0, as it is for every worker [on_convert_file] starts: the
    GUI offers 720, 1080, 1440 and 2160. *)
Theorem equal_resolution_skipped (env : environment) :
  (forall (self : DownloadWorker) (dl : download) (h : Z),
      ydl_download env (dw_url self) (dw_outtmpl self) = Ok dl ->
      outcome (final_height_of env dl) = Ok h ->
      dw_convert self = true -> dw_output_type self = "MP4" ->
      h = dw_target_resolution self ->
      count_events is_transcode (trace (dw_run env self)) = 0%nat
      /\ last (trace (dw_run env self)) = Some (FinishedSignal (msg_equal h))
      /\ outcome (dw_run env self) = Ok tt)
  /\ (forall (self : ConvertFileWorker) (h : Z),
      os_path_exists env (cw_input_path self) = true ->
      cw_output_type self = "MP4" ->
      outcome (ffprobe_get_height env (cw_input_path self)) = Ok h ->
      cw_target_resolution self = Some h ->
      h <> 0 ->
      count_events is_transcode (trace (cw_run env self)) = 0%nat
      /\ last (trace (cw_run env self)) = Some (FinishedSignal (msg_equal h))
      /\ outcome (cw_run env self) = Ok tt)
  /\ (forall (file_path_text out_sel res_text : string)
             (self : ConvertFileWorker) (h : Z),
      res_text ∈ resolution_items ->
      on_convert_file env file_path_text out_sel res_text
      = Ok (StartConvert self) ->
      cw_output_type self = "MP4" ->
      outcome (ffprobe_get_height env (cw_input_path self)) = Ok h ->
      cw_target_resolution self = Some h ->
      count_events is_transcode (trace (cw_run env self)) = 0%nat
      /\ last (trace (cw_run env self)) = Some (FinishedSignal (msg_equal h))
      /\ outcome (cw_run env self) = Ok tt).
Proof.
  destruct (equal_resolution_general env) as [Hdw Hcw].
  split; [exact Hdw|]. split; [exact Hcw|].
  intros file_path_text out_sel res_text self h Hitem Hstart Hty Hout Htarget.
  destruct (on_convert_file_started _ _ _ _ _ Hstart) as (Hex & t & Hint & Ht).
  destruct (gui_resolutions_nonzero _ Hitem) as (t' & Hint' & Hne).
  rewrite Hint in Hint'. injection Hint' as <-.
  rewrite Hty in Ht. simpl in Ht. rewrite Htarget in Ht. injection Ht as ->.
  now apply Hcw.
Qed.

Lemma equal_resolution_skipped_witness :
  last (trace (dw_run (Sample.world (Some 1080) Sample.no_probe ∅)
                 (Sample.download_worker true 1080 "MP4")))
  = Some (FinishedSignal
            "Skipped conversion: source resolution equals target (1080p).")
  /\ last (trace (cw_run (Sample.world None (Ok "1080") {[ "/dl/clip.mp4" ]})
                    (Sample.convert_worker "MP4" (Some 1080))))
     = Some (FinishedSignal
               "Skipped conversion: source resolution equals target (1080p).")
  /\ count_events is_transcode
       (trace (cw_run (Sample.world None (Ok "1080") {[ "/dl/clip.mp4" ]})
                 (Sample.convert_worker "MP4" (Some 1080)))) = 0%nat.
Proof.
  destruct (equal_resolution_skipped
              (Sample.world (Some 1080) Sample.no_probe ∅)) as (Hdw & _).
  destruct (equal_resolution_skipped
              (Sample.world None (Ok "1080") {[ "/dl/clip.mp4" ]}))
    as (_ & Hcw & Hgui).
  split; [|split].
  - apply (Hdw (Sample.download_worker true 1080 "MP4")
             {| info_height := Some 1080; downloaded_file := "/dl/clip.mp4" |}
             1080); reflexivity.
  - apply (Hcw (Sample.convert_worker "MP4" (Some 1080)) 1080);
      try reflexivity. lia.
  - apply (Hgui "/dl/clip.mp4" "MP4 (Video)" "1080"
             (Sample.convert_worker "MP4" (Some 1080)) 1080);
      try reflexivity.
    unfold resolution_items. repeat constructor.
Defined.

Lemma unknown_height_general (env : environment) :
  (forall self : ConvertFileWorker,
      os_path_exists env (cw_input_path self) = true ->
      cw_output_type self = "MP4" ->
      outcome (ffprobe_get_height env (cw_input_path self)) = Ok 0 ->
      count_events is_transcode (trace (cw_run env self)) = 0%nat
      /\ last (trace (cw_run env self))
         = Some (FinishedSignal "Conversion aborted: unknown source resolution.")
      /\ outcome (cw_run env self) = Ok tt)
  /\ (forall (self : DownloadWorker) (dl : download),
      ydl_download env (dw_url self) (dw_outtmpl self) = Ok dl ->
      outcome (final_height_of env dl) = Ok 0 ->
      dw_convert self = true -> dw_output_type self = "MP4" ->
      dw_target_resolution self <> 0 ->
      let target := dw_target_resolution self in
      let file := downloaded_file dl in
      StatusSignal
        "Warning: could not detect source resolution; attempting conversion."
        ∈ trace (dw_run env self)
      /\ SubprocessRun (scale_cmd file target (scaled_path file target))
           ∈ trace (dw_run env self)
      /\ count_events is_transcode (trace (dw_run env self)) = 1%nat).
Proof.
  split.
  - intros self Hex Hty Hout.
    height_known (ffprobe_get_height_shape env (cw_input_path self)) Hout.
    unfold cw_run.
    rewrite (cw_body_probed env self _ _ Hex Hty Hrun).
    rewrite cw_after_probe_unknown. simpl.
    repeat split.
    + rewrite count_events_app. simpl. lia.
    + rewrite last_app_cons. reflexivity.
  - intros self dl Hdl Hout Hc Hty Hne target file.
    height_known (final_height_of_shape env dl) Hout.
    unfold dw_run.
    rewrite (dw_body_downloaded env self dl _ _ Hdl Hrun).
    rewrite (dw_after_probe_unknown env self _ Hc Hty Hne).
    fold target. fold file. unfold unknown_height_warning.
    destruct (subprocess_run env _) as [[]|e]; simpl;
      (repeat split;
       [ set_solver
       | set_solver
       | rewrite ?count_events_app; simpl;
         rewrite ?count_events_app; simpl; lia ]).
Qed.

(** C9.  The two workers diverge when the source height cannot be
    detected.  With an MP4 target and detected height 0 the file worker
    aborts: it runs no ffmpeg and ends with the message that the source
    resolution is unknown.  The download worker, converting to a requested
    resolution, emits the warning and runs the ffmpeg conversion all the
    same.  This needs the resolution not to be 0, as it is for every worker
    [on_download] starts: the GUI offers 720, 1080, 1440 and 2160. *)
Theorem unknown_height_diverges (env : environment) :
  (forall self : ConvertFileWorker,
      os_path_exists env (cw_input_path self) = true ->
      cw_output_type self = "MP4" ->
      outcome (ffprobe_get_height env (cw_input_path self)) = Ok 0 ->
      count_events is_transcode (trace (cw_run env self)) = 0%nat
      /\ last (trace (cw_run env self))
         = Some (FinishedSignal "Conversion aborted: unknown source resolution.")
      /\ outcome (cw_run env self) = Ok tt)
  /\ (forall (self : DownloadWorker) (dl : download),
      ydl_download env (dw_url self) (dw_outtmpl self) = Ok dl ->
      outcome (final_height_of env dl) = Ok 0 ->
      dw_convert self = true -> dw_output_type self = "MP4" ->
      dw_target_resolution self <> 0 ->
      let target := dw_target_resolution self in
      let file := downloaded_file dl in
      StatusSignal
        "Warning: could not detect source resolution; attempting conversion."
        ∈ trace (dw_run env self)
      /\ SubprocessRun (scale_cmd file target (scaled_path file target))
           ∈ trace (dw_run env self)
      /\ count_events is_transcode (trace (dw_run env self)) = 1%nat)
  /\ (forall (url outtmpl output_text res_text : string) (target : Z)
             (dl : download),
      res_text ∈ resolution_items ->
      PyStr.int res_text = Some target ->
      PyStr.contains "MP3" output_text = false ->
      let self := on_download_worker url outtmpl output_text true target in
      ydl_download env url outtmpl = Ok dl ->
      outcome (final_height_of env dl) = Ok 0 ->
      let file := downloaded_file dl in
      StatusSignal
        "Warning: could not detect source resolution; attempting conversion."
        ∈ trace (dw_run env self)
      /\ SubprocessRun (scale_cmd file target (scaled_path file target))
           ∈ trace (dw_run env self)
      /\ count_events is_transcode (trace (dw_run env self)) = 1%nat).
Proof.
  destruct (unknown_height_general env) as [Hcw Hdw].
  split; [exact Hcw|]. split; [exact Hdw|].
  intros url outtmpl output_text res_text target dl Hitem Hint Htext self
    Hdl Hout file.
  destruct (gui_resolutions_nonzero _ Hitem) as (t' & Hint' & Hne).
  rewrite Hint in Hint'. injection Hint' as <-.
  assert (Hself : self
                  = {| dw_url := url; dw_outtmpl := outtmpl; dw_convert := true;
                       dw_target_resolution := target;
                       dw_output_type := "MP4" |}).
  { unfold self, on_download_worker, download_output_type. now rewrite Htext. }
  apply (Hdw self dl); rewrite ?Hself; try assumption; reflexivity.
Qed.

Lemma unknown_height_diverges_witness :
  last (trace (cw_run (Sample.world None Sample.no_probe {[ "/dl/clip.mp4" ]})
                 (Sample.convert_worker "MP4" (Some 720))))
  = Some (FinishedSignal "Conversion aborted: unknown source resolution.")
  /\ count_events is_transcode
       (trace (dw_run (Sample.world None Sample.no_probe ∅)
                 (Sample.download_worker true 720 "MP4"))) = 1%nat
  /\ count_events is_transcode
       (trace (dw_run (Sample.world None Sample.no_probe ∅)
                 (on_download_worker "https://example.org/v/1"
                    "/dl/clip.%(ext)s" "Video (MP4)" true 720))) = 1%nat.
Proof.
  destruct (unknown_height_diverges
              (Sample.world None Sample.no_probe {[ "/dl/clip.mp4" ]}))
    as (Hcw & _).
  destruct (unknown_height_diverges (Sample.world None Sample.no_probe ∅))
    as (_ & Hdw & Hgui).
  split; [|split].
  - apply (Hcw (Sample.convert_worker "MP4" (Some 720))); reflexivity.
  - apply (Hdw (Sample.download_worker true 720 "MP4")
             {| info_height := None; downloaded_file := "/dl/clip.mp4" |});
      try reflexivity. discriminate.
  - apply (Hgui "https://example.org/v/1" "/dl/clip.%(ext)s" "Video (MP4)"
             "720" 720
             {| info_height := None; downloaded_file := "/dl/clip.mp4" |});
      try reflexivity.
    unfold resolution_items. repeat constructor.
Defined.

(** ** Output paths *)

Section OutputPaths.

Variable env : environment.

Lemma dw_after_probe_mp3 self file h :
  dw_output_type self = "MP3" ->
  let mp3_path := fst (PosixPath.splitext file) +:+ ".mp3" in
  exists rest,
    trace (dw_after_probe env self file h)
    = StatusSignal "Converting downloaded file to MP3..."
        :: SubprocessRun (mp3_cmd file mp3_path) :: rest.
Proof.
  intros Hty mp3_path. unfold dw_after_probe, call_run. rewrite Hty. simpl.
  unfold_M. fold mp3_path.
  destruct (subprocess_run env _) as [[]|e]; simpl; eauto.
Qed.

Lemma cw_after_probe_scale self t h :
  cw_target_resolution self = Some t -> h <> 0 -> t < h ->
  let input := cw_input_path self in
  exists rest,
    trace (cw_after_probe env self h)
    = StatusSignal ("Converting to " +:+ pretty t +:+ "p -> "
                      +:+ scaled_path input t)
        :: SubprocessRun (scale_cmd input t (scaled_path input t)) :: rest.
Proof.
  intros Ht Hne Hlt input. unfold cw_after_probe, call_run. rewrite Ht. simpl.
  destruct (Z.eqb_spec h 0); [congruence|]. unfold_M.
  destruct (Z.gtb_spec t h); [lia|]. simpl.
  destruct (Z.eqb_spec t h); [lia|].
  destruct (subprocess_run env _) as [[]|e]; simpl; eauto.
Qed.

Lemma cw_body_audio self :
  os_path_exists env (cw_input_path self) = true ->
  let input := cw_input_path self in
  let base := fst (PosixPath.splitext input) in
  (cw_output_type self = "MP3" ->
   exists rest,
     trace (cw_run env self)
     = StatusSignal ("Converting to MP3: " +:+ base +:+ ".mp3")
         :: SubprocessRun (mp3_cmd input (base +:+ ".mp3")) :: rest)
  /\ (cw_output_type self = "WAV" ->
      exists rest,
        trace (cw_run env self)
        = StatusSignal ("Converting to WAV: " +:+ base +:+ ".wav")
            :: SubprocessRun (wav_cmd input (base +:+ ".wav")) :: rest).
Proof.
  intros Hex input base.
  split; intros Hty; unfold cw_run, cw_body, call_run; rewrite Hex, Hty;
    simpl; unfold_M; fold input; fold base;
    destruct (subprocess_run env _) as [[]|e]; simpl; eauto.
Qed.

End OutputPaths.

(** C2, as stated, fails: converting [/dl/clip.mp4] to MP3 while
    [/dl/clip.mp3] exists chooses that existing path as ffmpeg's output,
    with the overwrite flag. *)
Lemma no_overwrite_counterexample :
  let env :=
    Sample.world None Sample.no_probe {[ "/dl/clip.mp4"; "/dl/clip.mp3" ]} in
  trace (cw_run env (Sample.convert_worker "MP3" None))
  = [StatusSignal "Converting to MP3: /dl/clip.mp3";
     SubprocessRun ["ffmpeg"; "-i"; "/dl/clip.mp4"; "-q:a"; "0"; "-map"; "a";
                    "-y"; "/dl/clip.mp3"];
     FinishedSignal "Audio saved: /dl/clip.mp3"]
  /\ os_path_exists env "/dl/clip.mp3" = true.
Proof. vm_compute. split; reflexivity. Qed.

(** C2, amended.  Only the download's path is chosen to be free: the path
    [make_unique_filepath] returns does not exist when it is chosen.  The
    conversions (MP3 of a downloaded file; MP3, WAV and scaled MP4 of a
    selected file) write to the input's path with its extension replaced,
    whether or not that path exists, and pass it to ffmpeg after the
    overwrite flag. *)
Theorem only_download_path_is_fresh (env : environment) :
  (forall (fs : gset string) (save_dir base_filename ext : string)
          (fallback_id : option string) (fuel : nat),
      (size fs < fuel)%nat ->
      exists p,
        make_unique_filepath fs save_dir base_filename ext fuel fallback_id
        = Some p
        /\ path_exists fs p = false)
  /\ (forall (self : DownloadWorker) (dl : download),
      ydl_download env (dw_url self) (dw_outtmpl self) = Ok dl ->
      dw_output_type self = "MP3" ->
      let file := downloaded_file dl in
      SubprocessRun (mp3_cmd file (fst (PosixPath.splitext file) +:+ ".mp3"))
        ∈ trace (dw_run env self))
  /\ (forall self : ConvertFileWorker,
      os_path_exists env (cw_input_path self) = true ->
      let input := cw_input_path self in
      let base := fst (PosixPath.splitext input) in
      (cw_output_type self = "MP3" ->
       SubprocessRun (mp3_cmd input (base +:+ ".mp3")) ∈ trace (cw_run env self))
      /\ (cw_output_type self = "WAV" ->
          SubprocessRun (wav_cmd input (base +:+ ".wav"))
            ∈ trace (cw_run env self))
      /\ (forall t h,
             cw_output_type self = "MP4" ->
             cw_target_resolution self = Some t ->
             outcome (ffprobe_get_height env input) = Ok h ->
             h <> 0 -> t < h ->
             SubprocessRun
               (scale_cmd input t (base +:+ "_" +:+ pretty t +:+ "p.mp4"))
               ∈ trace (cw_run env self))).
Proof.
  split; [|split].
  - intros fs save_dir base_filename ext fallback_id fuel Hfuel.
    destruct (make_unique_filepath_returns fs save_dir base_filename ext
                fuel fallback_id Hfuel) as [p Hp].
    exists p. split; [assumption|]. apply path_exists_false.
    apply make_unique_filepath_cases in Hp. cbv zeta in Hp.
    destruct Hp as [[Hfree ->]|[(_ & fid & _ & _ & Hfree & ->)|(_ & _ & Hloop)]];
      try assumption.
    now apply numeric_loop_Some in Hloop as (i & _ & -> & Hfree & _).
  - intros self dl Hdl Hty file.
    destruct (final_height_of_shape env dl) as (t & h & Hrun & _).
    destruct (dw_after_probe_mp3 env self file h Hty) as [rest Hrest].
    unfold dw_run.
    rewrite (dw_body_downloaded env self dl _ _ Hdl Hrun).
    fold file. rewrite Hrest. unfold try_except.
    destruct (outcome _); simpl; set_solver.
  - intros self Hex input base.
    destruct (cw_body_audio env self Hex) as [Hmp3 Hwav].
    split; [|split].
    + intros Hty. apply Hmp3 in Hty as [rest Hrest].
      rewrite Hrest. set_solver.
    + intros Hty. apply Hwav in Hty as [rest Hrest].
      rewrite Hrest. set_solver.
    + intros t h Hty Htarget Hout Hne Hlt. subst input base.
      height_known (ffprobe_get_height_shape env (cw_input_path self)) Hout.
      destruct (cw_after_probe_scale env self t h Htarget Hne Hlt)
        as [rest Hrest].
      unfold cw_run.
      rewrite (cw_body_probed env self _ _ Hex Hty Hrun).
      rewrite Hrest. unfold try_except.
      destruct (outcome _); simpl; set_solver.
Qed.

Lemma only_download_path_is_fresh_witness :
  let fs : gset string := {[ "/dl/clip.mp4"; "/dl/clip.mp3" ]} in
  let env := Sample.world None Sample.no_probe fs in
  (exists p, make_unique_filepath fs "/dl" "clip" "mp4" 3 (Some "abc") = Some p
             /\ path_exists fs p = false)
  /\ SubprocessRun (mp3_cmd "/dl/clip.mp4" "/dl/clip.mp3")
       ∈ trace (cw_run env (Sample.convert_worker "MP3" None)).
Proof.
  intros fs env.
  destruct (only_download_path_is_fresh env) as (Hfresh & _ & Hconvert).
  split.
  - apply Hfresh. vm_compute. lia.
  - apply (Hconvert (Sample.convert_worker "MP3" None)); reflexivity.
Defined.

(** ** [get_uploader] *)

Lemma get_or_empty_iff (info : info_dict) k :
  get_or info k "" = ""
  <-> (info !! k = None \/ info !! k = Some "").
Proof.
  unfold get_or, str_or. destruct (info !! k) as [[|a v]|]; simpl;
    split; intros H; auto; try discriminate.
  destruct H as [H|H]; discriminate.
Qed.



Lemma first_truthy_frame (info : gmap string string) keys k v :
  k ∉ keys -> first_truthy (<[k := v]> info) keys = first_truthy info keys.
Proof.
  induction keys as [|k' keys IH]; intros Hk; [reflexivity|]. simpl.
  apply not_elem_of_cons in Hk as [Hne Hk].
  rewrite lookup_insert_ne by congruence. rewrite (IH Hk). reflexivity.
Qed.

Lemma first_truthy_empty_value (info : gmap string string) keys k :
  first_truthy (<[k := ""]> info) keys = first_truthy (delete k info) keys.
Proof.
  induction keys as [|k' keys IH]; [reflexivity|]. simpl.
  destruct (decide (k = k')) as [->|Hne].
  - rewrite lookup_insert_eq, lookup_delete_eq. simpl. exact IH.
  - rewrite lookup_insert_ne, lookup_delete_ne by assumption. now rewrite IH.
Qed.

(** X2.  [get_uploader] reads nothing but its four keys: setting any other
    key of the info dict leaves its result unchanged; and a key set to the
    empty string counts as a key that is absent. *)
Theorem get_uploader_reads_four_keys (info : info_dict) (k v : string) :
  (k ∉ uploader_keys -> get_uploader (<[k := v]> info) = get_uploader info)
  /\ get_uploader (<[k := ""]> info) = get_uploader (delete k info).
Proof.
  split.
  - apply first_truthy_frame.
  - apply first_truthy_empty_value.
Qed.

Lemma get_uploader_reads_four_keys_witness :
  get_uploader (<["title" := "a clip"]> {[ "channel" := "someone" ]})
  = get_uploader {[ "channel" := "someone" ]}.
Proof.
  apply (get_uploader_reads_four_keys {[ "channel" := "someone" ]}
           "title" "a clip").
  vm_compute. intros H. repeat (apply elem_of_cons in H as [H|H]; [discriminate|]).
  inversion H.
Defined.

(** ** The shape of a cleaned title *)

Lemma space_is_space a : bool_decide (a = " "%char) = true -> PyStr.is_space a = true.
Proof. intros ->%bool_decide_eq_true. reflexivity. Qed.

Lemma not_space_not_blank a :
  PyStr.is_space a = false -> bool_decide (a = " "%char) = false.
Proof.
  intros H. destruct (bool_decide (a = " "%char)) eqn:E; [|reflexivity].
  apply space_is_space in E. congruence.
Qed.

Lemma kept_plain a :
  PyStr.is_space a = false ->
  Title.is_ascii a && negb (Title.not_word_space_hyphen a) = true ->
  plain_char a = true.
Proof.
  unfold Title.not_word_space_hyphen, plain_char. intros ->.
  rewrite negb_involutive, orb_false_r.
  intros [_ H]%andb_true_iff. rewrite H. reflexivity.
Qed.

Lemma sub_runs_plain in_run s :
  PyStr.all_chars
    (fun a => Title.is_ascii a && negb (Title.not_word_space_hyphen a)) s = true ->
  PyStr.all_chars plain_char (Title.sub_runs in_run s) = true.
Proof.
  revert in_run. induction s as [|a s IH]; intros in_run; simpl; [easy|].
  intros [Ha Hs]%andb_true_iff.
  destruct (PyStr.is_space a) eqn:Esp.
  - destruct in_run; simpl; auto.
  - simpl. rewrite (kept_plain a Esp Ha). simpl. auto.
Qed.

Lemma sub_runs_single_spaced in_run s :
  single_spaced (Title.sub_runs in_run s) = true
  /\ (in_run = true -> PyStr.startswith " "%char (Title.sub_runs in_run s) = false).
Proof.
  revert in_run. induction s as [|a s IH]; intros in_run; simpl; [easy|].
  destruct (PyStr.is_space a) eqn:Esp.
  - destruct (IH true) as [Hss Hhead]. destruct in_run.
    + split; [assumption|]. intros _. now apply Hhead.
    + split; [|discriminate]. simpl. rewrite Hhead by reflexivity.
      simpl. exact Hss.
  - destruct (IH false) as [Hss _]. simpl.
    rewrite (not_space_not_blank a Esp). simpl. auto.
Qed.

Lemma lstrip_no_leading_space s :
  PyStr.startswith " "%char (PyStr.lstrip s) = false.
Proof.
  induction s as [|a s IH]; simpl; [reflexivity|].
  destruct (PyStr.is_space a) eqn:Esp; [assumption|]. simpl.
  now apply not_space_not_blank.
Qed.

Lemma rstrip_leading c s :
  PyStr.startswith c s = false -> PyStr.startswith c (PyStr.rstrip s) = false.
Proof.
  destruct s as [|a s]; simpl; [easy|]. intros H.
  destruct (PyStr.is_space a && negb _); [reflexivity|exact H].
Qed.

Lemma prefix_leading c n s :
  PyStr.startswith c s = false -> PyStr.startswith c (PyStr.prefix n s) = false.
Proof. destruct n, s; simpl; auto. Qed.

Lemma single_spaced_lstrip s :
  single_spaced s = true -> single_spaced (PyStr.lstrip s) = true.
Proof.
  induction s as [|a s IH]; simpl; [easy|]. intros H.
  destruct (PyStr.is_space a); [|exact H].
  apply andb_true_iff in H as [_ H]. auto.
Qed.

Lemma single_spaced_rstrip s :
  single_spaced s = true -> single_spaced (PyStr.rstrip s) = true.
Proof.
  induction s as [|a s IH]; simpl; [easy|].
  intros [Ha Hs]%andb_true_iff.
  destruct (PyStr.is_space a && negb _); [reflexivity|]. simpl.
  rewrite (IH Hs), andb_true_r.
  destruct (bool_decide (a = " "%char)); [|reflexivity]. simpl in *.
  apply negb_true_iff in Ha. now rewrite (rstrip_leading _ _ Ha).
Qed.

Lemma single_spaced_prefix n s :
  single_spaced s = true -> single_spaced (PyStr.prefix n s) = true.
Proof.
  revert s. induction n as [|n IH]; intros [|a s]; simpl; try easy.
  intros [Ha Hs]%andb_true_iff.
  rewrite (IH _ Hs), andb_true_r.
  destruct (bool_decide (a = " "%char)); [|reflexivity]. simpl in *.
  apply negb_true_iff in Ha. now rewrite (prefix_leading _ n _ Ha).
Qed.

(** What every result of [clean_title] looks like. *)
Lemma clean_title_shape title :
  let r := Title.clean_title title in
  PyStr.all_chars plain_char r = true
  /\ PyStr.startswith " "%char r = false
  /\ single_spaced r = true
  /\ (String.length r <= 120)%nat
  /\ PyStr.truthy r = true.
Proof.
  cbv zeta. rewrite clean_title_unfold.
  destruct title as [|cp title]; [repeat split; simpl; lia|].
  set (s := Title.sanitized (cp :: title)).
  destruct (PyStr.truthy (PyStr.prefix 120 s)) eqn:Ht;
    [|repeat split; simpl; lia].
  repeat split; try assumption.
  - apply all_chars_prefix. unfold s, Title.sanitized.
    apply all_chars_strip, sub_runs_plain, all_chars_both.
    + apply all_chars_sub_delete, all_chars_sub_space; [reflexivity|].
      apply all_chars_sub_delete, encode_ascii_ignore_ascii.
    + apply all_chars_deleted.
  - apply prefix_leading, rstrip_leading, lstrip_no_leading_space.
  - apply single_spaced_prefix, single_spaced_rstrip, single_spaced_lstrip.
    apply sub_runs_single_spaced.
  - apply prefix_length.
Qed.

(** X3.  A cleaned title consists of ASCII letters, digits, underscores,
    hyphens and spaces only; it never begins with a space and never has
    two spaces in a row. *)
Theorem clean_title_plain (title : list N) :
  PyStr.all_chars plain_char (Title.clean_title title) = true
  /\ PyStr.startswith " "%char (Title.clean_title title) = false
  /\ single_spaced (Title.clean_title title) = true.
Proof.
  destruct (clean_title_shape title) as (H1 & H2 & H3 & _). auto.
Qed.

(** ** Cleaning a cleaned title *)

Lemma plain_facts a :
  plain_char a = true ->
  Title.is_ascii a = true
  /\ Title.in_class Title.tag_chars a = false
  /\ Title.in_class Title.reserved_chars a = false
  /\ Title.not_word_space_hyphen a = false
  /\ (PyStr.is_space a = true -> a = " "%char).
Proof.
  destruct a as [[] [] [] [] [] [] [] []]; vm_compute;
    intros H; repeat split; congruence.
Qed.

Lemma encode_code_points s :
  PyStr.all_chars plain_char s = true ->
  Title.encode_ascii_ignore (PyStr.code_points s) = s.
Proof.
  induction s as [|a s IH]; simpl; [reflexivity|].
  intros [Ha Hs]%andb_true_iff.
  destruct (plain_facts a Ha) as (Hascii & _).
  unfold Title.is_ascii in Hascii. rewrite Hascii.
  now rewrite ascii_N_embedding, IH.
Qed.

Lemma sub_delete_none cls s :
  PyStr.all_chars (fun a => negb (cls a)) s = true -> Title.sub_delete cls s = s.
Proof.
  induction s as [|a s IH]; simpl; [reflexivity|].
  intros [Ha Hs]%andb_true_iff. apply negb_true_iff in Ha.
  now rewrite Ha, IH.
Qed.

Lemma sub_space_none cls s :
  PyStr.all_chars (fun a => negb (cls a)) s = true -> Title.sub_space cls s = s.
Proof.
  induction s as [|a s IH]; simpl; [reflexivity|].
  intros [Ha Hs]%andb_true_iff. apply negb_true_iff in Ha.
  now rewrite Ha, IH.
Qed.

Lemma sub_runs_none in_run s :
  PyStr.all_chars plain_char s = true ->
  single_spaced s = true ->
  (in_run = true -> PyStr.startswith " "%char s = false) ->
  Title.sub_runs in_run s = s.
Proof.
  revert in_run. induction s as [|a s IH]; intros in_run; simpl; [reflexivity|].
  intros [Ha Hs]%andb_true_iff [Hsp Hss]%andb_true_iff Hrun.
  destruct (plain_facts a Ha) as (_ & _ & _ & _ & Hblank).
  destruct (PyStr.is_space a) eqn:Esp.
  - rewrite (Hblank eq_refl) in *. simpl in Hsp.
    apply negb_true_iff in Hsp.
    destruct in_run; [now specialize (Hrun eq_refl)|].
    now rewrite (IH true Hs Hss (fun _ => Hsp)).
  - now rewrite (IH false Hs Hss).
Qed.

Lemma lstrip_none s :
  PyStr.all_chars plain_char s = true ->
  PyStr.startswith " "%char s = false ->
  PyStr.lstrip s = s.
Proof.
  destruct s as [|a s]; simpl; [reflexivity|].
  intros [Ha _]%andb_true_iff Hhead.
  destruct (plain_facts a Ha) as (_ & _ & _ & _ & Hblank).
  destruct (PyStr.is_space a); [|reflexivity].
  rewrite (Hblank eq_refl) in Hhead. discriminate.
Qed.

Lemma rstrip_none s :
  PyStr.all_chars plain_char s = true ->
  PyStr.endswith " "%char s = false ->
  PyStr.rstrip s = s.
Proof.
  induction s as [|a s IH]; [reflexivity|].
  intros [Ha Hs]%andb_true_iff Hend.
  destruct (plain_facts a Ha) as (_ & _ & _ & _ & Hblank).
  destruct s as [|b s].
  - simpl in *. destruct (PyStr.is_space a); [|reflexivity].
    rewrite (Hblank eq_refl) in Hend. discriminate.
  - change (PyStr.endswith " "%char (String b s) = false) in Hend.
    change (PyStr.rstrip (String a (String b s)))
      with (let r := PyStr.rstrip (String b s) in
            if PyStr.is_space a && negb (PyStr.truthy r)
            then EmptyString else String a r).
    rewrite (IH Hs Hend). simpl. now rewrite andb_false_r.
Qed.

Lemma prefix_none n s : (String.length s <= n)%nat -> PyStr.prefix n s = s.
Proof.
  revert s. induction n as [|n IH]; intros [|a s]; simpl; try easy; try lia.
  intros H. rewrite IH by lia. reflexivity.
Qed.

(** A string that already has the shape of a cleaned title, and no space
    at its end, is left as it is. *)
Lemma clean_title_fixed s :
  PyStr.all_chars plain_char s = true ->
  PyStr.startswith " "%char s = false ->
  single_spaced s = true ->
  PyStr.endswith " "%char s = false ->
  (String.length s <= 120)%nat ->
  PyStr.truthy s = true ->
  Title.clean_title (PyStr.code_points s) = s.
Proof.
  intros Hplain Hhead Hss Hend Hlen Ht.
  rewrite clean_title_unfold.
  destruct s as [|a s]; [discriminate|].
  change (PyStr.code_points (String a s))
    with (N_of_ascii a :: PyStr.code_points s).
  cbv iota.
  change (N_of_ascii a :: PyStr.code_points s)
    with (PyStr.code_points (String a s)).
  set (t := String a s) in *.
  assert (Hsan : Title.sanitized (PyStr.code_points t) = t).
  { assert (Htag : PyStr.all_chars
                     (fun c => negb (Title.in_class Title.tag_chars c)) t = true).
    { revert Hplain. apply all_chars_impl. intros c Hc.
      destruct (plain_facts c Hc) as (_ & -> & _). reflexivity. }
    assert (Hres : PyStr.all_chars
                     (fun c => negb (Title.in_class Title.reserved_chars c)) t
                   = true).
    { revert Hplain. apply all_chars_impl. intros c Hc.
      destruct (plain_facts c Hc) as (_ & _ & -> & _). reflexivity. }
    assert (Hkeep : PyStr.all_chars
                      (fun c => negb (Title.not_word_space_hyphen c)) t = true).
    { revert Hplain. apply all_chars_impl. intros c Hc.
      destruct (plain_facts c Hc) as (_ & _ & _ & -> & _). reflexivity. }
    unfold Title.sanitized, PyStr.strip.
    rewrite (encode_code_points _ Hplain).
    rewrite (sub_delete_none _ _ Htag), (sub_space_none _ _ Hres),
      (sub_delete_none _ _ Hkeep).
    rewrite sub_runs_none by (assumption || discriminate).
    rewrite lstrip_none by assumption. now apply rstrip_none. }
  rewrite Hsan, (prefix_none _ _ Hlen), Ht. reflexivity.
Qed.

Lemma clean_title_safe_chars title :
  PyStr.all_chars
    (fun a => Title.is_ascii a && negb (Title.not_word_space_hyphen a))
    (Title.clean_title title) = true.
Proof.
  rewrite clean_title_unfold. destruct title as [|cp title]; [reflexivity|].
  destruct (PyStr.truthy _); [|reflexivity].
  apply all_chars_prefix, sanitized_chars.
Qed.

(** The cleaned title is what is left of the title, cut to 120 characters. *)
Lemma clean_title_content title :
  Title.sanitized title <> "" ->
  Title.clean_title title = PyStr.prefix 120 (Title.sanitized title).
Proof.
  intros Hne. rewrite clean_title_unfold.
  destruct title as [|cp title]; [now contradict Hne|].
  destruct (Title.sanitized (cp :: title)) as [|a s]; [now contradict Hne|].
  reflexivity.
Qed.

Lemma clean_title_nothing_left title :
  Title.sanitized title = "" -> Title.clean_title title = "video".
Proof.
  intros E. rewrite clean_title_unfold.
  destruct title as [|cp title]; [reflexivity|]. now rewrite E.
Qed.

(** C5, as stated, fails for the uploader part: with the channel box
    checked and no uploader in the metadata nothing is appended to the
    cleaned title, where the claim appends an underscore and the cleaned
    uploader (which would be [video]). *)
Lemma base_filename_counterexample :
  let info : info_dict := {[ "title" := "A clip" ]} in
  get_uploader info = ""
  /\ download_base_filename info true false "" = "A clip"
  /\ Title.clean_title (PyStr.code_points (download_title info))
       +:+ "_" +:+ Title.clean_title (PyStr.code_points (get_uploader info))
     = "A clip_video"
  /\ download_base_filename info true false ""
     <> Title.clean_title (PyStr.code_points (download_title info))
          +:+ "_" +:+ Title.clean_title (PyStr.code_points (get_uploader info)).
Proof. vm_compute. repeat split; try reflexivity. discriminate. Qed.

(** C5, amended.  [clean_title] returns a non-empty ASCII string of at most
    120 characters with none of the characters backslash, slash, colon,
    star, question mark, double quote, angle brackets, bar, hash and at
    sign.  It returns [video] when the title is empty or nothing of it is
    left; otherwise it returns what is left of the title, cut to 120
    characters, and a title that is clean already is returned as it is.
    The download's base filename is the cleaned title, then an underscore
    and the cleaned uploader when the channel box is checked and the
    uploader is not empty, then an underscore and the timestamp when the
    timestamp box is checked. *)
Theorem clean_title_filename (title uploader : list N)
    (checkbox_channel checkbox_timestamp : bool) (stamp : string) :
  let r := Title.clean_title title in
  r <> ""
  /\ (String.length r <= 120)%nat
  /\ PyStr.all_chars Title.is_ascii r = true
  /\ PyStr.all_chars
       (fun a => negb (Title.in_class Title.forbidden_chars a)) r = true
  /\ (title = [] -> r = "video")
  /\ (Title.sanitized title = "" -> r = "video")
  /\ (Title.sanitized title <> "" ->
      r = PyStr.prefix 120 (Title.sanitized title))
  /\ (forall s : string,
         PyStr.all_chars plain_char s = true ->
         PyStr.startswith " "%char s = false ->
         single_spaced s = true ->
         PyStr.endswith " "%char s = false ->
         (String.length s <= 120)%nat ->
         s <> "" ->
         Title.clean_title (PyStr.code_points s) = s)
  /\ Title.base_filename title uploader checkbox_channel checkbox_timestamp stamp
     = r +:+ (if checkbox_channel && negb (bool_decide (uploader = []))
              then "_" +:+ Title.clean_title uploader else "")
         +:+ (if checkbox_timestamp then "_" +:+ stamp else "").
Proof.
  intros r.
  destruct (clean_title_shape title) as (_ & _ & _ & Hlen & Ht).
  pose proof (clean_title_safe_chars title) as Hchars.
  fold r in Hlen, Ht, Hchars.
  split; [intros E; rewrite E in Ht; discriminate|].
  split; [exact Hlen|].
  split.
  { revert Hchars. apply all_chars_impl. now intros a [H _]%andb_true_iff. }
  split.
  { revert Hchars. apply all_chars_impl, kept_not_forbidden. }
  split; [intros E; subst r; now rewrite E|].
  split; [apply clean_title_nothing_left|].
  split; [apply clean_title_content|].
  split.
  { intros s Hplain Hhead Hss Hend Hs Hne. apply clean_title_fixed; try assumption.
    destruct s; [now contradict Hne|reflexivity]. }
  unfold Title.base_filename. fold r.
  destruct (checkbox_channel && _), checkbox_timestamp;
    now rewrite ?string_app_assoc, ?string_app_nil_r.
Qed.

Lemma clean_title_filename_witness :
  Title.clean_title (PyStr.code_points "Hello: World? #1") = "Hello World 1"
  /\ Title.clean_title (PyStr.code_points "My-clip_2 final") = "My-clip_2 final"
  /\ Title.base_filename (PyStr.code_points "Hello: World? #1")
       (PyStr.code_points "Some/One") true true "20240101_120000"
     = "Hello World 1_Some One_20240101_120000"
  /\ Title.clean_title [] = "video"
  /\ Title.clean_title [35%N; 64%N] = "video".
Proof.
  destruct (clean_title_filename (PyStr.code_points "Hello: World? #1")
              (PyStr.code_points "Some/One") true true "20240101_120000")
    as (_ & _ & _ & _ & _ & _ & Hcontent & Hfixed & Hbase).
  split; [|split; [|split; [|split]]].
  - rewrite Hcontent; [vm_compute; reflexivity|vm_compute; discriminate].
  - apply Hfixed; try (vm_compute; reflexivity); [vm_compute; lia|discriminate].
  - rewrite Hbase. vm_compute. reflexivity.
  - destruct (clean_title_filename [] [] false false "")
      as (_ & _ & _ & _ & Hempty & _).
    apply Hempty. reflexivity.
  - destruct (clean_title_filename [35%N; 64%N] [] false false "")
      as (_ & _ & _ & _ & _ & Hnothing & _).
    apply Hnothing. reflexivity.
Defined.

(** X4.  Cleaning is stable: a cleaned title that does not end in a space
    (the cut at 120 characters can leave one) is unchanged when it is
    cleaned again. *)
Theorem clean_title_stable (title : list N) :
  PyStr.endswith " "%char (Title.clean_title title) = false ->
  Title.clean_title (PyStr.code_points (Title.clean_title title))
  = Title.clean_title title.
Proof.
  intros Hend.
  destruct (clean_title_shape title) as (Hplain & Hhead & Hss & Hlen & Ht).
  now apply clean_title_fixed.
Qed.

Lemma clean_title_stable_witness :
  Title.clean_title
    (PyStr.code_points (Title.clean_title (PyStr.code_points "What? A: clip #1")))
  = Title.clean_title (PyStr.code_points "What? A: clip #1").
Proof.
  apply (clean_title_stable (PyStr.code_points "What? A: clip #1")).
  vm_compute. reflexivity.
Defined.

(** ** [rfind], [basename] and [splitext] *)

Lemma lacks_app c s t : lacks c (s +:+ t) = lacks c s && lacks c t.
Proof.
  unfold lacks. induction s as [|a s IH]; [reflexivity|].
  rewrite string_app_cons. simpl. now rewrite IH, andb_assoc.
Qed.

Lemma lacks_cons c a s :
  lacks c (String a s) = negb (bool_decide (a = c)) && lacks c s.
Proof. reflexivity. Qed.

Lemma rfind_from_lacks c s i last :
  lacks c s = true -> PyStr.rfind_from c s i last = last.
Proof.
  revert i last. induction s as [|a s IH]; intros i last; simpl; [reflexivity|].
  rewrite lacks_cons. intros [Ha Hs]%andb_true_iff.
  apply negb_true_iff in Ha. rewrite Ha. now apply IH.
Qed.

(** The last occurrence, when the string is cut right there. *)
Lemma rfind_from_last c a b i last :
  lacks c b = true ->
  PyStr.rfind_from c (a +:+ String c b) i last = i + Z.of_nat (String.length a).
Proof.
  revert i last. induction a as [|x a IH]; intros i last Hb.
  - change (EmptyString +:+ String c b) with (String c b).
    simpl PyStr.rfind_from.
    rewrite bool_decide_eq_true_2 by reflexivity.
    rewrite rfind_from_lacks by assumption. simpl. lia.
  - rewrite string_app_cons. simpl PyStr.rfind_from.
    rewrite IH by assumption. simpl String.length. lia.
Qed.

Lemma rfind_from_spec c s i last :
  (lacks c s = true /\ PyStr.rfind_from c s i last = last)
  \/ (exists a b, s = a +:+ String c b /\ lacks c b = true
                  /\ PyStr.rfind_from c s i last = i + Z.of_nat (String.length a)).
Proof.
  revert i last. induction s as [|x s IH]; intros i last.
  - left. split; reflexivity.
  - simpl PyStr.rfind_from.
    destruct (IH (i + 1) (if bool_decide (x = c) then i else last))
      as [[Hs Hr]|(a & b & -> & Hb & Hr)].
    + destruct (bool_decide (x = c)) eqn:Ex.
      * apply bool_decide_eq_true in Ex as ->. right.
        exists EmptyString, s. repeat split; [assumption|].
        rewrite Hr. simpl. lia.
      * left. rewrite lacks_cons, Ex, Hs. split; [reflexivity|assumption].
    + right. exists (String x a), b. repeat split; [assumption|].
      rewrite Hr. simpl String.length. lia.
Qed.

Lemma prefix_app_exact a b : PyStr.prefix (String.length a) (a +:+ b) = a.
Proof.
  induction a as [|x a IH]; [now destruct b|].
  rewrite string_app_cons. simpl. now rewrite IH.
Qed.

Lemma suffix_app_exact a b : PyStr.suffix_from (String.length a) (a +:+ b) = b.
Proof.
  induction a as [|x a IH]; [now destruct b|].
  rewrite string_app_cons. simpl. exact IH.
Qed.

Lemma prefix_suffix n s : PyStr.prefix n s +:+ PyStr.suffix_from n s = s.
Proof.
  revert s. induction n as [|n IH]; intros [|a s]; simpl; try reflexivity.
  now rewrite string_app_cons, IH.
Qed.

(** Two ways to cut one string: the shorter head is a head of the longer. *)
Lemma string_app_eq_app a x a' y :
  a +:+ x = a' +:+ y -> (String.length a' <= String.length a)%nat ->
  exists m, a = a' +:+ m /\ y = m +:+ x.
Proof.
  revert a. induction a' as [|c a' IH]; intros a H Hlen.
  - exists a. split; [reflexivity|]. symmetry. exact H.
  - destruct a as [|d a]; [simpl in Hlen; lia|].
    rewrite !string_app_cons in H. injection H as -> H.
    destruct (IH a H) as (m & -> & ->); [simpl in Hlen; lia|].
    exists m. split; reflexivity.
Qed.

(** [os.path.splitext]: root and extension make up the path again. *)
Lemma splitext_join p :
  fst (PosixPath.splitext p) +:+ snd (PosixPath.splitext p) = p.
Proof.
  unfold PosixPath.splitext. cbv zeta.
  destruct (_ && _); simpl; [apply prefix_suffix|apply string_app_nil_r].
Qed.

(** The extension is empty, or a dot followed by neither dot nor slash. *)
Lemma splitext_ext p :
  snd (PosixPath.splitext p) = ""
  \/ exists e, snd (PosixPath.splitext p) = String "."%char e
               /\ lacks "."%char e = true
               /\ lacks PosixPath.sep e = true.
Proof.
  unfold PosixPath.splitext. cbv zeta.
  destruct (_ && _) eqn:E; simpl; [|now left].
  apply andb_true_iff in E as [Hlt _]. apply Z.ltb_lt in Hlt.
  unfold PyStr.rfind in *.
  destruct (rfind_from_spec "."%char p 0 (-1))
    as [[_ Hdot]|(a & b & Hp & Hb & Hdot)].
  { destruct (rfind_from_spec PosixPath.sep p 0 (-1))
      as [[_ Hsep]|(a' & b' & _ & _ & Hsep)]; lia. }
  right. exists b. rewrite Hdot, Z.add_0_l, Nat2Z.id.
  rewrite Hp at 1. rewrite suffix_app_exact.
  repeat split; try assumption.
  destruct (rfind_from_spec PosixPath.sep p 0 (-1))
    as [[Hnone _]|(a' & b' & Hp' & Hb' & Hsep)].
  - rewrite Hp, lacks_app, lacks_cons in Hnone.
    apply andb_true_iff in Hnone as [_ [_ H]%andb_true_iff]. exact H.
  - rewrite Hp in Hp'.
    destruct (string_app_eq_app _ _ _ _ Hp') as (m & -> & Hm); [lia|].
    destruct m as [|c m].
    + rewrite string_app_length in Hdot. simpl in *. lia.
    + rewrite string_app_cons in Hm. injection Hm as <- ->.
      rewrite lacks_app, lacks_cons in Hb'.
      apply andb_true_iff in Hb' as [_ [_ H]%andb_true_iff]. exact H.
Qed.

(** ** Where the conversions write *)

Lemma root_plus_tail_is_path p tail :
  fst (PosixPath.splitext p) +:+ tail = p <-> tail = snd (PosixPath.splitext p).
Proof.
  split.
  - intros H. rewrite <- (splitext_join p) in H at 2.
    now apply (inj (String.app _)) in H.
  - intros ->. apply splitext_join.
Qed.

(** X5.  The scaled video never goes to the path it is read from: the
    output path of the resolution conversion, in both workers, differs
    from the input path. *)
Theorem scaled_output_is_not_input (input : string) :
  (forall target : Z, scaled_path input target <> input)
  /\ (forall target : option Z,
         fst (PosixPath.splitext input) +:+ "_" +:+ target_str target +:+ "p.mp4"
         <> input).
Proof.
  assert (H : forall tail,
             fst (PosixPath.splitext input) +:+ "_" +:+ tail <> input).
  { intros tail E. apply root_plus_tail_is_path in E.
    destruct (splitext_ext input) as [E'|(e & E' & _)];
      rewrite E' in E; discriminate. }
  split; intros target; apply H.
Qed.

(** X6.  Converting a selected file to MP3 (to WAV) runs ffmpeg with an
    output path that is the input path itself exactly when the input's
    extension already is [.mp3] ([.wav]). *)
Theorem audio_output_is_input_iff (env : environment) (self : ConvertFileWorker) :
  os_path_exists env (cw_input_path self) = true ->
  let input := cw_input_path self in
  (cw_output_type self = "MP3" ->
   exists out,
     SubprocessRun (mp3_cmd input out) ∈ trace (cw_run env self)
     /\ (out = input <-> snd (PosixPath.splitext input) = ".mp3"))
  /\ (cw_output_type self = "WAV" ->
      exists out,
        SubprocessRun (wav_cmd input out) ∈ trace (cw_run env self)
        /\ (out = input <-> snd (PosixPath.splitext input) = ".wav")).
Proof.
  intros Hex input.
  destruct (cw_body_audio env self Hex) as [Hmp3 Hwav].
  split; intros Hty.
  - apply Hmp3 in Hty as [rest Hrest].
    exists (fst (PosixPath.splitext input) +:+ ".mp3"). split.
    + rewrite Hrest. set_solver.
    + rewrite root_plus_tail_is_path. split; congruence.
  - apply Hwav in Hty as [rest Hrest].
    exists (fst (PosixPath.splitext input) +:+ ".wav"). split.
    + rewrite Hrest. set_solver.
    + rewrite root_plus_tail_is_path. split; congruence.
Qed.

Lemma audio_output_is_input_iff_witness :
  exists out,
    SubprocessRun (mp3_cmd "/dl/clip.mp4" out)
      ∈ trace (cw_run (Sample.world None Sample.no_probe {[ "/dl/clip.mp4" ]})
                 (Sample.convert_worker "MP3" None))
    /\ out <> "/dl/clip.mp4".
Proof.
  destruct (audio_output_is_input_iff
              (Sample.world None Sample.no_probe {[ "/dl/clip.mp4" ]})
              (Sample.convert_worker "MP3" None)) as [Hmp3 _];
    [reflexivity|].
  destruct (Hmp3 eq_refl) as (out & Hin & Hiff).
  exists out. split; [exact Hin|].
  intros E. apply Hiff in E. vm_compute in E. discriminate.
Defined.

(** ** The extension [on_download] predicts *)

Lemma lstrip_char_lacks c s : lacks c s = true -> PyStr.lstrip_char c s = s.
Proof.
  destruct s as [|a s]; [reflexivity|]. rewrite lacks_cons.
  intros [Ha _]%andb_true_iff. apply negb_true_iff in Ha.
  simpl. now rewrite Ha.
Qed.

(** X7.  The extension [on_download] passes on is never empty and holds
    neither a dot nor a slash, whatever filename the extractor predicts;
    without an extension in the prediction it is [mp4]. *)
Theorem predicted_ext_clean (predicted : string) :
  PyStr.truthy (predicted_ext predicted) = true
  /\ lacks "."%char (predicted_ext predicted) = true
  /\ lacks PosixPath.sep (predicted_ext predicted) = true
  /\ (snd (PosixPath.splitext (PosixPath.basename predicted)) = "" ->
      predicted_ext predicted = "mp4").
Proof.
  unfold predicted_ext. cbv zeta.
  destruct (splitext_ext (PosixPath.basename predicted))
    as [E|(e & E & Hdot & Hsep)]; rewrite E.
  - repeat split; reflexivity.
  - change (PyStr.lstrip_char "."%char (String "."%char e))
      with (PyStr.lstrip_char "."%char e).
    rewrite (lstrip_char_lacks _ _ Hdot).
    destruct (PyStr.truthy e) eqn:Ht.
    + repeat split; try assumption; discriminate.
    + repeat split; try reflexivity; discriminate.
Qed.

Lemma predicted_ext_clean_witness : predicted_ext "/dl/clip" = "mp4".
Proof.
  apply (predicted_ext_clean "/dl/clip"). reflexivity.
Defined.

(** ** The output template of a download *)

Lemma endswith_split c a :
  PyStr.endswith c a = true -> exists a', a = a' +:+ String c EmptyString.
Proof.
  induction a as [|x a IH]; [discriminate|].
  destruct a as [|y a].
  - simpl. intros ->%bool_decide_eq_true. now exists EmptyString.
  - intros H. destruct (IH H) as [a' ->].
    exists (String x a'). reflexivity.
Qed.

Lemma lacks_not_startswith c s : lacks c s = true -> PyStr.startswith c s = false.
Proof.
  destruct s as [|a s]; [reflexivity|]. rewrite lacks_cons.
  intros [Ha _]%andb_true_iff. now apply negb_true_iff in Ha.
Qed.

Lemma basename_after_sep a name :
  lacks PosixPath.sep name = true ->
  PosixPath.basename (a +:+ String PosixPath.sep name) = name.
Proof.
  intros Hname. unfold PosixPath.basename, PyStr.rfind.
  rewrite rfind_from_last by assumption.
  replace (Z.to_nat (0 + Z.of_nat (String.length a) + 1))
    with (String.length (a +:+ String PosixPath.sep EmptyString))
    by (rewrite string_app_length; simpl; lia).
  replace (a +:+ String PosixPath.sep name)
    with ((a +:+ String PosixPath.sep EmptyString) +:+ name)
    by (now rewrite string_app_assoc).
  apply suffix_app_exact.
Qed.

(** [basename] undoes [join] on a name without separator. *)
Lemma basename_join a name :
  lacks PosixPath.sep name = true ->
  PosixPath.basename (PosixPath.join a name) = name.
Proof.
  intros Hname. unfold PosixPath.join.
  rewrite (lacks_not_startswith _ _ Hname).
  destruct (negb (PyStr.truthy a) || PyStr.endswith PosixPath.sep a) eqn:E;
    [|now apply basename_after_sep].
  destruct a as [|x a].
  - change (EmptyString +:+ name) with name.
    unfold PosixPath.basename, PyStr.rfind.
    now rewrite rfind_from_lacks.
  - change (PyStr.endswith PosixPath.sep (String x a) = true) in E.
    apply endswith_split in E as [a' E]. rewrite E.
    rewrite string_app_assoc. now apply basename_after_sep.
Qed.

(** [splitext] cuts a name at the dot before a dot-free extension. *)
Lemma splitext_stem x stem ext :
  x <> "."%char ->
  lacks PosixPath.sep (String x stem) = true ->
  lacks PosixPath.sep ext = true ->
  lacks "."%char ext = true ->
  fst (PosixPath.splitext (String x stem +:+ "." +:+ ext)) = String x stem.
Proof.
  intros Hx Hstem Hsep Hdot. unfold PosixPath.splitext, PyStr.rfind. cbv zeta.
  rewrite (rfind_from_lacks PosixPath.sep)
    by (rewrite lacks_app, Hstem; simpl; exact Hsep).
  change ("." +:+ ext) with (String "."%char ext).
  rewrite rfind_from_last by assumption.
  assert (Hlt : (-1 <? 0 + Z.of_nat (String.length (String x stem))) = true)
    by (apply Z.ltb_lt; lia).
  rewrite Hlt.
  replace (Z.to_nat (0 + Z.of_nat (String.length (String x stem)) - (-1 + 1)))
    with (String.length (String x stem)) by lia.
  replace (Z.to_nat (-1 + 1)) with O by lia.
  replace (Z.to_nat (0 + Z.of_nat (String.length (String x stem))))
    with (String.length (String x stem)) by lia.
  change (PyStr.suffix_from 0 (String x stem +:+ String "."%char ext))
    with (String x stem +:+ String "."%char ext).
  rewrite prefix_app_exact.
  simpl PyStr.all_chars. rewrite bool_decide_eq_false_2 by assumption.
  reflexivity.
Qed.

Lemma pretty_N_go_chars (p : ascii -> bool) :
  (forall d, p (pretty_N_char d) = true) ->
  forall x s, PyStr.all_chars p s = true ->
              PyStr.all_chars p (pretty_N_go x s) = true.
Proof.
  intros Hp x. induction (N.lt_wf_0 x) as [x _ IH]. intros s Hs.
  destruct (decide (x = 0)%N) as [->|Hne]; [now rewrite pretty_N_go_0|].
  rewrite pretty_N_go_step by lia.
  apply IH; [apply N.div_lt; lia|]. simpl. now rewrite Hp, Hs.
Qed.

(** A number's decimal form holds no separator. *)
Lemma pretty_lacks_sep (z : Z) : lacks PosixPath.sep (pretty z) = true.
Proof.
  assert (HN : forall n : N, lacks PosixPath.sep (pretty n) = true).
  { intros n. unfold pretty, pretty_N.
    destruct (decide (n = 0)%N); [reflexivity|].
    apply pretty_N_go_chars; [|reflexivity].
    intros d. unfold pretty_N_char. repeat case_match; reflexivity. }
  destruct z as [|q|q]; [reflexivity|apply (HN (Npos q))|].
  change (pretty (Zneg q)) with ("-" +:+ pretty (Npos q)).
  rewrite lacks_app, (HN (Npos q)). reflexivity.
Qed.

Lemma plain_not_sep_dot a :
  plain_char a = true -> a <> PosixPath.sep /\ a <> "."%char.
Proof.
  destruct a as [[] [] [] [] [] [] [] []]; vm_compute; intros H;
    split; congruence.
Qed.

Lemma clean_title_lacks_sep title :
  lacks PosixPath.sep (Title.clean_title title) = true.
Proof.
  destruct (clean_title_shape title) as (Hplain & _).
  revert Hplain. apply all_chars_impl. intros a Ha.
  destruct (plain_not_sep_dot a Ha) as [Hsep _].
  now rewrite bool_decide_eq_false_2.
Qed.

Lemma base_filename_lacks_sep title uploader ch ts stamp :
  lacks PosixPath.sep stamp = true ->
  lacks PosixPath.sep (Title.base_filename title uploader ch ts stamp) = true.
Proof.
  intros Hstamp. unfold Title.base_filename.
  pose proof (clean_title_lacks_sep title) as Hsep.
  pose proof (clean_title_lacks_sep uploader) as Hsep'.
  destruct (ch && _), ts; rewrite ?lacks_app, ?Hsep, ?Hsep', ?Hstamp;
    reflexivity.
Qed.

Lemma base_filename_head title uploader ch ts stamp :
  exists tail,
    Title.base_filename title uploader ch ts stamp
    = Title.clean_title title +:+ tail.
Proof.
  unfold Title.base_filename.
  destruct (ch && _), ts; rewrite ?string_app_assoc; eauto.
  exists EmptyString. now rewrite string_app_nil_r.
Qed.

(** The base filename begins with a character that is no dot and holds no
    separator, if the timestamp holds none. *)
Lemma base_filename_shape title uploader ch ts stamp :
  lacks PosixPath.sep stamp = true ->
  exists x rest,
    Title.base_filename title uploader ch ts stamp = String x rest
    /\ x <> "."%char
    /\ lacks PosixPath.sep (String x rest) = true.
Proof.
  intros Hstamp.
  pose proof (base_filename_lacks_sep title uploader ch ts stamp Hstamp) as Hsep.
  destruct (base_filename_head title uploader ch ts stamp) as [tail Hbase].
  destruct (clean_title_shape title) as (Hplain & _ & _ & _ & Ht).
  destruct (Title.clean_title title) as [|x r]; [discriminate|].
  simpl in Hplain. apply andb_true_iff in Hplain as [Hx _].
  destruct (plain_not_sep_dot x Hx) as [_ Hdot].
  rewrite string_app_cons in Hbase.
  exists x, (r +:+ tail). rewrite <- Hbase. auto.
Qed.

(** The stem of a joined name is found again by [final_base]. *)
Lemma final_base_join save_dir x stem ext :
  x <> "."%char ->
  lacks PosixPath.sep (String x stem) = true ->
  lacks PosixPath.sep ext = true ->
  lacks "."%char ext = true ->
  final_base (PosixPath.join save_dir (String x stem +:+ "." +:+ ext))
  = String x stem.
Proof.
  intros Hx Hstem Hsep Hdot. unfold final_base.
  rewrite basename_join.
  - now apply splitext_stem.
  - rewrite !lacks_app, Hstem, Hsep. reflexivity.
Qed.

(** X8.  The output template [on_download] hands to the worker names the
    path it has just found free: when the video id and the timestamp hold
    no slash, the template's base followed by a dot and the predicted
    extension, joined to the folder, is the path [make_unique_filepath]
    returned, and that path does not exist. *)
Theorem download_template_round_trip
    (fs : gset string) (fuel : nat) (save_dir : string) (info : info_dict)
    (checkbox_channel checkbox_timestamp : bool) (stamp predicted : string)
    (final_path : string) :
  lacks PosixPath.sep (download_vid_id info) = true ->
  lacks PosixPath.sep stamp = true ->
  download_final_path fs fuel save_dir info checkbox_channel checkbox_timestamp
    stamp predicted = Some final_path ->
  PosixPath.join save_dir
    (final_base final_path +:+ "." +:+ predicted_ext predicted) = final_path
  /\ path_exists fs final_path = false.
Proof.
  intros Hid Hstamp Hpath. unfold download_final_path in Hpath.
  destruct (predicted_ext_clean predicted) as (_ & Hdot & Hsep & _).
  destruct (base_filename_shape
              (PyStr.code_points (download_title info))
              (PyStr.code_points (str_or (get_uploader info) ""))
              checkbox_channel checkbox_timestamp stamp Hstamp)
    as (x & rest & Hbase & Hx & Hlacks).
  unfold download_base_filename in Hpath. rewrite Hbase in Hpath.
  set (ext := predicted_ext predicted) in *.
  assert (Hstem : forall tail,
             lacks PosixPath.sep tail = true ->
             PosixPath.join save_dir
               (final_base (PosixPath.join save_dir
                              (String x rest +:+ tail +:+ "." +:+ ext))
                  +:+ "." +:+ ext)
             = PosixPath.join save_dir (String x rest +:+ tail +:+ "." +:+ ext)).
  { intros tail Htail.
    rewrite <- (string_app_assoc (String x rest) tail).
    rewrite string_app_cons, final_base_join; try assumption.
    - reflexivity.
    - rewrite <- string_app_cons, lacks_app, Hlacks, Htail. reflexivity. }
  apply make_unique_filepath_cases in Hpath. cbv zeta in Hpath.
  destruct Hpath as [[Hfree ->]|[(_ & fid & [= <-] & _ & Hfree & ->)
                               |(_ & _ & Hloop)]].
  - split; [|now apply path_exists_false].
    apply (Hstem EmptyString eq_refl).
  - split; [|now apply path_exists_false].
    unfold candidate2.
    apply (Hstem ("_" +:+ download_vid_id info)).
    now rewrite lacks_app, Hid.
  - apply numeric_loop_Some in Hloop as (i & _ & -> & Hfree & _).
    split; [|now apply path_exists_false].
    unfold candidate3.
    apply (Hstem ("_" +:+ pretty i)).
    now rewrite lacks_app, pretty_lacks_sep.
Qed.

Lemma download_template_round_trip_witness :
  let fs : gset string := {[ "/dl/A clip.webm" ]} in
  let info : info_dict := {[ "title" := "A clip"; "id" := "x1.y" ]} in
  PosixPath.join "/dl" (final_base "/dl/A clip_x1.y.webm" +:+ "." +:+ "webm")
  = "/dl/A clip_x1.y.webm".
Proof.
  intros fs info.
  apply (download_template_round_trip fs 2 "/dl" info false false ""
           "/dl/A clip.webm" "/dl/A clip_x1.y.webm");
    vm_compute; reflexivity.
Defined.

(** ** One finished signal per run *)

Section FinishedOnce.

Variable env : environment.

Lemma ffprobe_get_height_silent path :
  exists t h,
    ffprobe_get_height env path = (t, Ok h)
    /\ count_events is_finished t = 0%nat.
Proof.
  pose proof (ffprobe_get_height_value env path) as H. cbv zeta in H.
  eexists _, _. split; [exact H|].
  destruct (numeric_output _); reflexivity.
Qed.

Lemma final_height_of_silent dl :
  exists t h,
    final_height_of env dl = (t, Ok h)
    /\ count_events is_finished t = 0%nat.
Proof.
  unfold final_height_of.
  destruct (info_height dl) as [h|]; [destruct (h =? 0)|];
    try apply ffprobe_get_height_silent.
  exists [], h. split; reflexivity.
Qed.

(** What follows the probe either ends normally, having emitted the
    finished signal once and last, or raises before emitting it. *)
Lemma dw_after_probe_finished self file h :
  match outcome (dw_after_probe env self file h) with
  | Ok _ =>
      count_events is_finished (trace (dw_after_probe env self file h)) = 1%nat
      /\ exists msg,
           last (trace (dw_after_probe env self file h))
           = Some (FinishedSignal msg)
  | Raise _ =>
      count_events is_finished (trace (dw_after_probe env self file h)) = 0%nat
  end.
Proof.
  unfold dw_after_probe, call_run. unfold_M.
  destruct (String.eqb (dw_output_type self) "MP3").
  { destruct (subprocess_run env _) as [[]|e]; simpl;
      [split; [reflexivity|eauto]|reflexivity]. }
  destruct (dw_convert self && _); simpl; [|split; [reflexivity|eauto]].
  destruct (_ && (h >? 0)).
  { destruct (h =? 0); simpl; (split; [reflexivity|eauto]). }
  destruct (h =? dw_target_resolution self).
  { destruct (h =? 0); simpl; (split; [reflexivity|eauto]). }
  destruct (h =? 0); simpl;
    destruct (subprocess_run env _) as [[]|e]; simpl;
    try reflexivity; (split; [reflexivity|eauto]).
Qed.

Lemma cw_body_finished self :
  match outcome (cw_body env self) with
  | Ok _ =>
      count_events is_finished (trace (cw_body env self)) = 1%nat
      /\ exists msg, last (trace (cw_body env self)) = Some (FinishedSignal msg)
  | Raise _ => count_events is_finished (trace (cw_body env self)) = 0%nat
  end.
Proof.
  unfold cw_body, call_run. unfold_M.
  destruct (negb _); simpl; [split; [reflexivity|eauto]|].
  destruct (_ || _); simpl.
  { destruct (String.eqb _ "MP3"); simpl;
      destruct (subprocess_run env _) as [[]|e]; simpl; try reflexivity;
      (split; [reflexivity|eauto]). }
  destruct (String.eqb _ "MP4"); simpl; [|split; [reflexivity|eauto]].
  destruct (ffprobe_get_height_silent (cw_input_path self))
    as (t & h & -> & Hsilent).
  simpl. unfold cw_after_probe, call_run, target_gt. unfold_M.
  destruct (h =? 0); simpl.
  { rewrite count_events_app, Hsilent. simpl.
    split; [reflexivity|]. rewrite last_app_cons. simpl. eauto. }
  destruct (cw_target_resolution self) as [target|]; simpl.
  2:{ now rewrite count_events_app, Hsilent. }
  destruct (target >? h); simpl.
  { rewrite count_events_app, Hsilent. simpl.
    split; [reflexivity|]. rewrite last_app_cons. simpl. eauto. }
  destruct (target =? h); simpl.
  { rewrite count_events_app, Hsilent. simpl.
    split; [reflexivity|]. rewrite last_app_cons. simpl. eauto. }
  destruct (subprocess_run env _) as [[]|e]; simpl;
    rewrite count_events_app, Hsilent; simpl; [|reflexivity].
  split; [reflexivity|]. rewrite last_app_cons. simpl. eauto.
Qed.

End FinishedOnce.

(** X9.  Every run of either worker emits [finished_signal] exactly once,
    as its last event - whether the work succeeds, is skipped or raises -
    so the button the GUI disabled is enabled again exactly once. *)
Theorem finished_exactly_once (env : environment) :
  (forall self : DownloadWorker,
      count_events is_finished (trace (dw_run env self)) = 1%nat
      /\ exists msg, last (trace (dw_run env self)) = Some (FinishedSignal msg))
  /\ (forall self : ConvertFileWorker,
      count_events is_finished (trace (cw_run env self)) = 1%nat
      /\ exists msg, last (trace (cw_run env self)) = Some (FinishedSignal msg)).
Proof.
  split; intros self.
  - unfold dw_run, dw_body, call_extractor. unfold_M.
    destruct (ydl_download env _ _) as [dl|e]; simpl;
      [|split; [reflexivity|eauto]].
    destruct (final_height_of_silent env dl) as (t & h & -> & Hsilent).
    simpl.
    pose proof (dw_after_probe_finished env self (downloaded_file dl) h) as H.
    destruct (dw_after_probe env self (downloaded_file dl) h) as [t' [[]|e]];
      simpl in *.
    + destruct H as [Hcount [msg Hlast]].
      rewrite ?count_events_app; simpl; rewrite ?count_events_app; simpl.
      split; [lia|]. exists msg.
      destruct t' as [|ev t']; [discriminate|].
      now rewrite !app_comm_cons, last_app_cons, last_cons_cons.
    + rewrite ?count_events_app; simpl; rewrite ?count_events_app; simpl.
      rewrite ?count_events_app; simpl.
      split; [lia|]. eexists.
      rewrite app_comm_cons. apply last_snoc.
  - unfold cw_run, try_except.
    pose proof (cw_body_finished env self) as H.
    destruct (cw_body env self) as [t [[]|e]]; simpl in *; [exact H|].
    rewrite count_events_app. simpl. split; [lia|].
    eexists. apply last_snoc.
Qed.

(** ** What a worker runs, and when *)

(** X10.  [ConvertFileWorker.run] calls an external tool only for an input
    that exists and an output type among MP3, WAV and MP4; for a missing
    file or any other type it runs nothing. *)
Theorem convert_runs_only_known_work (env : environment) (self : ConvertFileWorker) :
  count_events is_external (trace (cw_run env self)) <> 0%nat ->
  os_path_exists env (cw_input_path self) = true
  /\ (cw_output_type self = "MP3" \/ cw_output_type self = "WAV"
      \/ cw_output_type self = "MP4").
Proof.
  unfold cw_run, cw_body. unfold_M.
  destruct (os_path_exists env (cw_input_path self)); simpl;
    [|intros H; now contradict H].
  destruct (String.eqb_spec (cw_output_type self) "MP3") as [->|_];
    [auto|]. simpl.
  destruct (String.eqb_spec (cw_output_type self) "WAV") as [->|_];
    [auto|]. simpl.
  destruct (String.eqb_spec (cw_output_type self) "MP4") as [->|_];
    [auto|]. simpl.
  intros H. now contradict H.
Qed.

Lemma convert_runs_only_known_work_witness :
  os_path_exists (Sample.world None (Ok "1080") {[ "/dl/clip.mp4" ]})
    "/dl/clip.mp4" = true.
Proof.
  apply (convert_runs_only_known_work
           (Sample.world None (Ok "1080") {[ "/dl/clip.mp4" ]})
           (Sample.convert_worker "MP4" (Some 720))).
  vm_compute. discriminate.
Defined.

(** X11.  [DownloadWorker.run] starts a subprocess - a height probe or
    ffmpeg - only after the extractor's download has succeeded. *)
Theorem download_first (env : environment) (self : DownloadWorker) :
  (count_events is_probe (trace (dw_run env self))
   + count_events is_transcode (trace (dw_run env self)) <> 0)%nat ->
  exists dl, ydl_download env (dw_url self) (dw_outtmpl self) = Ok dl.
Proof.
  unfold dw_run, dw_body, call_extractor. unfold_M.
  destruct (ydl_download env _ _) as [dl|e]; simpl; [eauto|].
  intros H. now contradict H.
Qed.

Lemma download_first_witness :
  exists dl,
    ydl_download (Sample.world (Some 1080) Sample.no_probe ∅)
      "https://example.org/v/1" "/dl/clip.%(ext)s" = Ok dl.
Proof.
  apply (download_first (Sample.world (Some 1080) Sample.no_probe ∅)
           (Sample.download_worker true 720 "MP4")).
  vm_compute. discriminate.
Defined.

(** ** Workers as the GUI starts them *)

Lemma on_download_worker_audio url outtmpl output_text convert_checked target :
  PyStr.contains "MP3" output_text = true ->
  on_download_worker url outtmpl output_text convert_checked target
  = {| dw_url := url; dw_outtmpl := outtmpl; dw_convert := false;
       dw_target_resolution := target; dw_output_type := "MP3" |}.
Proof.
  intros H. unfold on_download_worker, download_output_type. rewrite H.
  simpl. now rewrite andb_false_r.
Qed.

(** X12.  For an audio download the convert checkbox and the chosen
    resolution have no effect: whatever they are, the worker [on_download]
    starts does the same. *)
Theorem audio_download_ignores_video_options
    (env : environment) (url outtmpl output_text : string)
    (convert_checked convert_checked' : bool) (target target' : Z) :
  PyStr.contains "MP3" output_text = true ->
  dw_run env (on_download_worker url outtmpl output_text convert_checked target)
  = dw_run env (on_download_worker url outtmpl output_text convert_checked' target').
Proof.
  intros H. rewrite !on_download_worker_audio by assumption.
  unfold dw_run, dw_body, dw_after_probe. reflexivity.
Qed.

Lemma audio_download_ignores_video_options_witness :
  dw_run (Sample.world (Some 1080) Sample.no_probe ∅)
    (on_download_worker "u" "/dl/clip.%(ext)s" "Audio (MP3)" true 720)
  = dw_run (Sample.world (Some 1080) Sample.no_probe ∅)
      (on_download_worker "u" "/dl/clip.%(ext)s" "Audio (MP3)" false 2160).
Proof.
  apply (audio_download_ignores_video_options
           (Sample.world (Some 1080) Sample.no_probe ∅)
           "u" "/dl/clip.%(ext)s" "Audio (MP3)" true false 720 2160).
  reflexivity.
Defined.

(** X13.  A video download without the convert checkbox never runs ffmpeg:
    when the download succeeds the run ends with the message that the
    download is finished, naming the downloaded file. *)
Theorem plain_video_download_untouched
    (env : environment) (url outtmpl output_text : string) (target : Z)
    (dl : download) :
  PyStr.contains "MP3" output_text = false ->
  ydl_download env url outtmpl = Ok dl ->
  let self := on_download_worker url outtmpl output_text false target in
  count_events is_transcode (trace (dw_run env self)) = 0%nat
  /\ last (trace (dw_run env self))
     = Some (FinishedSignal ("Download finished: " +:+ downloaded_file dl)).
Proof.
  intros Htext Hdl self.
  destruct (final_height_of_shape env dl) as (t & h & Hrun & _ & Ht & _).
  unfold dw_run.
  rewrite (dw_body_downloaded env self dl t h Hdl Hrun).
  unfold self, on_download_worker, download_output_type, dw_after_probe.
  rewrite Htext. simpl. split.
  - rewrite count_events_app. simpl. lia.
  - now rewrite app_comm_cons, last_app_cons.
Qed.

Lemma plain_video_download_untouched_witness :
  last (trace (dw_run (Sample.world (Some 1080) Sample.no_probe ∅)
                 (on_download_worker "u" "/dl/clip.%(ext)s" "Video (MP4)"
                    false 720)))
  = Some (FinishedSignal "Download finished: /dl/clip.mp4").
Proof.
  apply (plain_video_download_untouched
           (Sample.world (Some 1080) Sample.no_probe ∅)
           "u" "/dl/clip.%(ext)s" "Video (MP4)" 720
           {| info_height := Some 1080; downloaded_file := "/dl/clip.mp4" |});
    reflexivity.
Defined.

(** X14.  A worker that [on_convert_file] starts has an input path that
    exists, an output type among MP4, MP3 and WAV, and a target resolution
    exactly when the type is MP4.  Run in the same environment it ends with
    one of: audio saved, conversion aborted, skipped (no upscaling or equal
    resolution), conversion completed, or the text of an exception that a
    subprocess call raised - never with a missing input, unknown
    parameters or a comparison with [None]. *)
Theorem gui_conversion_endings
    (env : environment) (file_path_text out_sel res_text : string)
    (w : ConvertFileWorker) :
  on_convert_file env file_path_text out_sel res_text = Ok (StartConvert w) ->
  os_path_exists env (cw_input_path w) = true
  /\ (cw_output_type w = "MP4" /\ is_Some (cw_target_resolution w)
      \/ (cw_output_type w = "MP3" \/ cw_output_type w = "WAV")
         /\ cw_target_resolution w = None)
  /\ exists msg,
       last (trace (cw_run env w)) = Some (FinishedSignal msg)
       /\ ((exists out, msg = "Audio saved: " +:+ out)
           \/ msg = "Conversion aborted: unknown source resolution."
           \/ (exists h t, msg = msg_no_upscaling h t)
           \/ (exists h, msg = msg_equal h)
           \/ (exists out, msg = "Conversion completed: " +:+ out)
           \/ (exists cmd e,
                  subprocess_run env cmd = Raise e
                  /\ msg = "Error during conversion: " +:+ exn_text e)).
Proof.
  unfold on_convert_file. cbv zeta.
  destruct (negb (PyStr.truthy _)); [discriminate|].
  destruct (os_path_exists env (PyStr.strip file_path_text)) eqn:Hex;
    simpl; [|discriminate].
  destruct (PyStr.int res_text) as [target|]; [|discriminate].
  intros [= <-]. simpl. split; [assumption|].
  unfold cw_run, cw_body, convert_output_type, call_run. simpl.
  rewrite Hex. simpl.
  destruct (PyStr.contains "MP4" out_sel); simpl.
  { split; [left; eauto|].
    destruct (ffprobe_get_height_silent env (PyStr.strip file_path_text))
      as (t & h & -> & _).
    unfold_M. simpl. unfold cw_after_probe, call_run, target_gt. simpl.
    unfold_M.
    destruct (h =? 0); simpl.
    { eexists. split; [now rewrite last_app_cons|]. do 1 right; left. reflexivity. }
    destruct (target >? h); simpl.
    { eexists. split; [now rewrite last_app_cons|]. do 2 right; left.
      exists h, target. reflexivity. }
    destruct (target =? h); simpl.
    { eexists. split; [now rewrite last_app_cons|]. do 3 right; left. eauto. }
    destruct (subprocess_run env _) as [[]|e] eqn:Hrun; simpl.
    - eexists. split; [now rewrite last_app_cons|]. do 4 right; left. eauto.
    - eexists. split.
      + apply last_snoc.
      + do 5 right. eauto. }
  destruct (PyStr.contains "MP3" out_sel); simpl.
  - split; [right; auto|]. unfold_M.
    destruct (subprocess_run env _) as [[]|e] eqn:Hrun; simpl;
      eexists; (split; [reflexivity|]).
    + left. eauto.
    + do 5 right. eauto.
  - split; [right; auto|]. unfold_M.
    destruct (subprocess_run env _) as [[]|e] eqn:Hrun; simpl;
      eexists; (split; [reflexivity|]).
    + left. eauto.
    + do 5 right. eauto.
Qed.

Lemma gui_conversion_endings_witness :
  exists msg,
    last (trace (cw_run (Sample.world None (Ok "1080") {[ "/dl/clip.mp4" ]})
                   (Sample.convert_worker "MP4" (Some 720))))
    = Some (FinishedSignal msg).
Proof.
  destruct (gui_conversion_endings
              (Sample.world None (Ok "1080") {[ "/dl/clip.mp4" ]})
              " /dl/clip.mp4 " "MP4 (Video)" "720"
              (Sample.convert_worker "MP4" (Some 720)))
    as (_ & _ & msg & Hlast & _); [reflexivity|].
  exists msg. exact Hlast.
Defined.

(** ** Downloads in a row *)

Lemma successive_paths_fresh save_dir base_filename ext fallback_id n :
  forall fs : gset string,
    let l := successive_paths fs save_dir base_filename ext fallback_id n in
    length l = n /\ NoDup l /\ forall p, p ∈ l -> p ∉ fs.
Proof.
  induction n as [|n IH]; intros fs; simpl.
  - repeat split; [constructor|]. intros p Hp. inversion Hp.
  - destruct (make_unique_filepath_returns fs save_dir base_filename ext
                (S (size fs)) fallback_id) as [p Hp]; [lia|].
    rewrite Hp.
    assert (Hfree : p ∉ fs).
    { apply make_unique_filepath_cases in Hp. cbv zeta in Hp.
      destruct Hp as [[H ->]|[(_ & fid & _ & _ & H & ->)|(_ & _ & Hloop)]];
        try assumption.
      now apply numeric_loop_Some in Hloop as (i & _ & -> & H & _). }
    destruct (IH ({[ p ]} ∪ fs)) as (Hlen & Hnd & Hout).
    repeat split.
    + simpl. now rewrite Hlen.
    + constructor; [|assumption]. intros Hin. apply Hout in Hin.
      apply Hin, elem_of_union_l, elem_of_singleton. reflexivity.
    + intros q [->|Hq]%elem_of_cons; [assumption|].
      apply Hout in Hq. intros Hfs. apply Hq, elem_of_union_r, Hfs.
Qed.

(** X15.  Downloads of the same name never collide: when each chosen path
    is created before the next one is chosen, [n] calls of
    [make_unique_filepath] with the same folder, name and extension return
    [n] different paths, none of which existed at the start. *)
Theorem successive_downloads_distinct
    (fs : gset string) (save_dir base_filename ext : string)
    (fallback_id : option string) (n : nat) :
  length (successive_paths fs save_dir base_filename ext fallback_id n) = n
  /\ NoDup (successive_paths fs save_dir base_filename ext fallback_id n)
  /\ forall p,
       p ∈ successive_paths fs save_dir base_filename ext fallback_id n ->
       p ∉ fs.
Proof. apply successive_paths_fresh. Qed.

Example successive_paths_example :
  successive_paths ∅ "/dl" "clip" "mp4" (Some "abc") 4
  = ["/dl/clip.mp4"; "/dl/clip_abc.mp4"; "/dl/clip_1.mp4"; "/dl/clip_2.mp4"].
Proof. vm_compute. reflexivity. Qed.

(** ** Probing and missing parameters *)

(** X16.  After a successful download the file is probed for its height
    exactly when the extractor reported none (no height, or height 0) -
    whatever the output type and the convert flag are. *)
Theorem probed_iff_height_missing
    (env : environment) (self : DownloadWorker) (dl : download) :
  ydl_download env (dw_url self) (dw_outtmpl self) = Ok dl ->
  (count_events is_probe (trace (dw_run env self)) <> 0%nat
   <-> (info_height dl = None \/ info_height dl = Some 0)).
Proof.
  intros Hdl.
  assert (Hprobe : forall t h,
             final_height_of env dl = (t, Ok h) ->
             count_events is_probe (trace (dw_run env self))
             = count_events is_probe t).
  { intros t h Hrun. unfold dw_run.
    rewrite (dw_body_downloaded env self dl t h Hdl Hrun).
    destruct (dw_after_probe_shape env self (downloaded_file dl) h)
      as (_ & Hp & _).
    unfold try_except.
    destruct (outcome _); simpl; rewrite ?count_events_app; simpl;
      rewrite ?count_events_app; simpl; rewrite ?Hp; lia. }
  pose proof (ffprobe_get_height_value env (downloaded_file dl)) as Hvalue.
  cbv zeta in Hvalue.
  unfold final_height_of in Hprobe.
  destruct (info_height dl) as [h|] eqn:Eh.
  - destruct (Z.eqb_spec h 0) as [->|Hne].
    + rewrite (Hprobe _ _ Hvalue). split; [auto|]. intros _.
      destruct (numeric_output _); simpl; lia.
    + rewrite (Hprobe [] h eq_refl). simpl. split; [congruence|].
      intros [H|[= H]]; congruence.
  - rewrite (Hprobe _ _ Hvalue). split; [auto|]. intros _.
    destruct (numeric_output _); simpl; lia.
Qed.

Lemma probed_iff_height_missing_witness :
  count_events is_probe
    (trace (dw_run (Sample.world None Sample.no_probe ∅)
              (Sample.download_worker false 720 "MP3"))) <> 0%nat.
Proof.
  apply (probed_iff_height_missing (Sample.world None Sample.no_probe ∅)
           (Sample.download_worker false 720 "MP3")
           {| info_height := None; downloaded_file := "/dl/clip.mp4" |}).
  - reflexivity.
  - left. reflexivity.
Defined.

(** X17.  A [ConvertFileWorker] made for MP4 without a target resolution
    (the constructor's default) does not convert: once a height other than
    0 is detected, comparing it with [None] raises, no ffmpeg is run and
    the run ends with the error message of that comparison. *)
Theorem missing_target_is_an_error
    (env : environment) (self : ConvertFileWorker) (h : Z) :
  os_path_exists env (cw_input_path self) = true ->
  cw_output_type self = "MP4" ->
  cw_target_resolution self = None ->
  outcome (ffprobe_get_height env (cw_input_path self)) = Ok h ->
  h <> 0 ->
  count_events is_transcode (trace (cw_run env self)) = 0%nat
  /\ last (trace (cw_run env self))
     = Some (FinishedSignal
               "Error during conversion: '>' not supported between instances of 'NoneType' and 'int'").
Proof.
  intros Hex Hty Htarget Hout Hne.
  height_known (ffprobe_get_height_shape env (cw_input_path self)) Hout.
  unfold cw_run. rewrite (cw_body_probed env self _ _ Hex Hty Hrun).
  unfold cw_after_probe, target_gt. rewrite Htarget.
  destruct (Z.eqb_spec h 0); [congruence|]. unfold_M. simpl. split.
  - rewrite !count_events_app. simpl. lia.
  - apply last_snoc.
Qed.

Lemma missing_target_is_an_error_witness :
  count_events is_transcode
    (trace (cw_run (Sample.world None (Ok "1080") {[ "/dl/clip.mp4" ]})
              (Sample.convert_worker "MP4" None))) = 0%nat.
Proof.
  apply (missing_target_is_an_error
           (Sample.world None (Ok "1080") {[ "/dl/clip.mp4" ]})
           (Sample.convert_worker "MP4" None) 1080); try reflexivity.
  discriminate.
Defined.
